(** * Plan CRUD handlers of the Plandex server

    A shallow embedding of [app/server/handlers/plans_crud.go].

    Every handler is a procedure over the request, the plan store and the
    response writer.  It is embedded as a function in a small monad that
    threads the store (together with the log of store operations the
    handler issued) and stops at the first response that ends the handler
    (Go's [http.Error(...); return]).  The [for { ... }] loop that resolves
    a plan name is embedded with a fuel argument, and shown to need no more
    than one iteration per stored plan plus one. *)

From Stdlib Require Import ZArith List String Ascii Bool Lia.
From Stdlib Require Import DecimalString DecimalZ Finite.
Import ListNotations.

Local Open Scope string_scope.
Local Open Scope Z_scope.

(** ** Go values *)

(** Go's [error], seen through [err.Error()]. *)
Definition error := string.

(** Go's [int] on the 64-bit platforms the server is built for: [i++]
    wraps around. *)
Definition int_max : Z := 2 ^ 63 - 1.

Definition wrap_int (z : Z) : Z := (z + 2 ^ 63) mod 2 ^ 64 - 2 ^ 63.

(** [fmt.Sprint(i)] for an [int]: the decimal numeral, with a leading
    minus sign for a negative number. *)
Definition fmt_Sprint (i : Z) : string := NilZero.string_of_int (Z.to_int i).

Module http.
Definition StatusOK : Z := 200.
Definition StatusBadRequest : Z := 400.
Definition StatusForbidden : Z := 403.
Definition StatusNotFound : Z := 404.
Definition StatusInternalServerError : Z := 500.
End http.

(** ** Types of the [shared], [types] and [db] packages, as the handlers
    use them *)

Module TrialPlansExceededError.
Record t := mk { MaxPlans : Z }.
End TrialPlansExceededError.

Inductive ApiErrorType := ApiErrorTypeTrialPlansExceeded | ApiErrorTypeOther.

Module ApiError.
Record t := mk {
  Type_ : ApiErrorType;
  Status : Z;
  Msg : string;
  TrialPlansExceededError : option TrialPlansExceededError.t
}.
End ApiError.

Module CreatePlanRequest.
Record t := mk { Name : string }.
End CreatePlanRequest.

Module CreatePlanResponse.
Record t := mk { Id : string; Name : string }.
End CreatePlanResponse.

Module User.
Record t := mk { Id : string; IsTrial : bool; NumNonDraftPlans : Z }.
End User.

Module Plan.
Record t := mk {
  Id : string;
  OrgId : string;
  OwnerId : string;
  ProjectId : string;
  Name : string
}.
End Plan.

Inductive Permission := PermissionCreatePlan | PermissionOther (name : string).

Module ServerAuth.
Record t := mk {
  User : User.t;
  OrgId : string;
  HasPermission : Permission -> bool
}.
End ServerAuth.

(** ** Requests and responses *)

(** The request body, as [io.ReadAll] and [json.Unmarshal] see it. *)
Inductive RequestBody :=
| BodyUnreadable                                   (* io.ReadAll fails *)
| BodyMalformed                                    (* json.Unmarshal fails *)
| BodyCreatePlan (requestBody : CreatePlanRequest.t).

Module Request.
Record t := mk {
  Header : string;
  Vars : list (string * string);                 (* mux.Vars(r) *)
  Body : RequestBody
}.
End Request.

(** [mux.Vars(r)[key]]: a Go map read, the empty string for a missing key. *)
Fixpoint vars_get (vars : list (string * string)) (key : string) : string :=
  match vars with
  | [] => ""
  | (k, v) :: rest => if String.eqb k key then v else vars_get rest key
  end.

Inductive Payload :=
| PayloadNone
| PayloadText (msg : string)                       (* http.Error *)
| PayloadApiError (e : ApiError.t)                 (* writeApiError *)
| PayloadCreatePlan (resp : CreatePlanResponse.t)  (* json.Marshal(resp) *)
| PayloadPlan (plan : Plan.t)
| PayloadPlans (plans : list Plan.t).

Module Response.
Record t := mk { Status : Z; Payload : Payload }.
End Response.

(** ** The plan store and the log of store operations *)

Inductive Call :=
| CallGetUser (userId : string)
| CallDeleteDraftPlans (orgId projectId userId : string)
| CallCountPlans (projectId userId name : string)
| CallCreatePlan (orgId projectId userId name : string)
| CallExecDeletePlan (planId : string)
| CallRowsAffected
| CallDeletePlanDir (orgId planId : string)
| CallDeleteOwnerPlans (orgId projectId userId : string)
| CallListOwnedPlans (projectId userId : string) (includeArchived : bool)
                     (filter : string).

Definition isDeletePlanDir (c : Call) : bool :=
  match c with CallDeletePlanDir _ _ => true | _ => false end.

Definition isMutation (c : Call) : bool :=
  match c with
  | CallDeleteDraftPlans _ _ _ | CallCreatePlan _ _ _ _
  | CallExecDeletePlan _ | CallDeletePlanDir _ _
  | CallDeleteOwnerPlans _ _ _ => true
  | _ => false
  end.

Module World.
Record t := mk {
  plans : list Plan.t;                 (* the rows of table [plans] *)
  planDirs : list (string * string);   (* plan directories: (org id, plan id) *)
  calls : list Call                    (* store operations issued, oldest first *)
}.
End World.

(** The collaborators whose code is outside this file, taken as
    parameters, as they answer while one request is served: the
    environment, the authentication and authorization helpers of the
    handlers package (each writes its own response when it refuses), the
    two read-only store queries, and which store operation fails with which
    error.  The answers move with the store (the user's plan count among
    them): a statement about requests served one after the other gives each
    its environment, or says which answers stay. *)
Module Env.
Record t := mk {
  IS_CLOUD : string;                                       (* os.Getenv("IS_CLOUD") *)
  authenticate : Request.t -> Response.t + ServerAuth.t;
  authorizeProject : string -> ServerAuth.t -> Response.t + unit;
  authorizePlan : list Plan.t -> string -> ServerAuth.t -> Response.t + Plan.t;
  authorizePlanDelete : list Plan.t -> string -> ServerAuth.t -> Response.t + Plan.t;
  GetUser : string -> error + User.t;
  ListOwnedPlans : list Plan.t -> string -> string -> bool -> string ->
                   error + list Plan.t;
  dbErr : Call -> option error;
  newPlanId : list Plan.t -> string
}.
End Env.

(** ** The handler monad *)

(** A computation either goes on with a value ([inr]) or has ended the
    handler with a response ([inl]); [None] is a loop out of fuel. *)
Definition M (A : Type) : Type := World.t -> option (World.t * (Response.t + A)).

Definition ret {A} (a : A) : M A := fun w => Some (w, inr a).

Definition bind {A B} (m : M A) (k : A -> M B) : M B :=
  fun w =>
    match m w with
    | None => None
    | Some (w', inl resp) => Some (w', inl resp)
    | Some (w', inr a) => k a w'
    end.

Notation "x <- m ;; k" := (bind m (fun x => k))
  (at level 61, m at next level, right associativity).

(** A helper's own refusal ends the handler with the helper's response. *)
Definition lift {A} (r : Response.t + A) : M A := fun w => Some (w, r).

(** [http.Error(w, msg, code); return] *)
Definition http_Error {A} (msg : string) (code : Z) : M A :=
  fun w => Some (w, inl (Response.mk code (PayloadText msg))).

(** Modelled from the spec: [writeApiError] of the handlers package is not
    in this file; the structured error is surfaced to the caller with the
    status it carries. *)
Definition writeApiError {A} (e : ApiError.t) : M A :=
  fun w => Some (w, inl (Response.mk (ApiError.Status e) (PayloadApiError e))).

Definition logCall (c : Call) (w : World.t) : World.t :=
  World.mk (World.plans w) (World.planDirs w) (World.calls w ++ [c]).

Definition setPlans (ps : list Plan.t) (w : World.t) : World.t :=
  World.mk ps (World.planDirs w) (World.calls w).

Definition setPlanDirs (ds : list (string * string)) (w : World.t) : World.t :=
  World.mk (World.plans w) ds (World.calls w).

(** The handler's final response. *)
Definition run (m : M Response.t) (w : World.t) : option (World.t * Response.t) :=
  match m w with
  | None => None
  | Some (w', inl resp) | Some (w', inr resp) => Some (w', resp)
  end.

Definition TrialMaxPlans : Z := 10.

Section Handlers.

Variable E : Env.t.

(** ** Store operations *)

(** A store operation is logged, then fails as the environment says or
    takes effect. *)
Definition dbCall {A} (c : Call) (effect : World.t -> World.t * A) : M (error + A) :=
  fun w =>
    let w1 := logCall c w in
    match Env.dbErr E c with
    | Some err => Some (w1, inr (inl err))
    | None => let (w2, a) := effect w1 in Some (w2, inr (inr a))
    end.

(** [db.GetUser(userId)]: a read; the user, with the plan count the user
    store holds while this request is served, or the error is the
    environment's. *)
Definition db_GetUser (userId : string) : M (error + User.t) :=
  fun w => Some (logCall (CallGetUser userId) w, inr (Env.GetUser E userId)).

Definition inScope (projectId userId : string) (p : Plan.t) : bool :=
  String.eqb (Plan.ProjectId p) projectId && String.eqb (Plan.OwnerId p) userId.

Definition hasName (projectId userId name : string) (p : Plan.t) : bool :=
  inScope projectId userId p && String.eqb (Plan.Name p) name.

(** [db.Conn.Get(&count, "SELECT COUNT( * ) FROM plans WHERE project_id = $1
    AND owner_id = $2 AND name = $3", projectId, userId, name)] *)
Definition countPlans (projectId userId name : string) (ps : list Plan.t) : Z :=
  Z.of_nat (List.length (List.filter (hasName projectId userId name) ps)).

Definition db_CountPlans (projectId userId name : string) : M (error + Z) :=
  dbCall (CallCountPlans projectId userId name)
         (fun w => (w, countPlans projectId userId name (World.plans w))).

(** [db.Conn.Exec("DELETE FROM plans WHERE id = $1", planId)]; the value is
    the number of rows the statement removed. *)
Definition db_ExecDeletePlan (planId : string) : M (error + Z) :=
  dbCall (CallExecDeletePlan planId)
         (fun w =>
            let gone := List.filter (fun p => String.eqb (Plan.Id p) planId) (World.plans w) in
            let kept := List.filter (fun p => negb (String.eqb (Plan.Id p) planId)) (World.plans w) in
            (setPlans kept w, Z.of_nat (List.length gone))).

(** [res.RowsAffected()] *)
Definition res_RowsAffected (res : Z) : M (error + Z) :=
  dbCall CallRowsAffected (fun w => (w, res)).

(** Modelled from the spec: [db.CreatePlan] is not in this file; it
    persists a new plan with the given organization, project, owner and
    name under a new identifier, and returns it. *)
Definition db_CreatePlan (orgId projectId userId name : string) : M (error + Plan.t) :=
  dbCall (CallCreatePlan orgId projectId userId name)
         (fun w =>
            let plan := Plan.mk (Env.newPlanId E (World.plans w)) orgId userId projectId name in
            (setPlans (World.plans w ++ [plan]) w, plan)).

Definition isDraftOf (orgId projectId userId : string) (p : Plan.t) : bool :=
  String.eqb (Plan.OrgId p) orgId && hasName projectId userId "draft" p.

(** Modelled from the spec: [db.DeleteDraftPlans] is not in this file; it
    deletes all existing draft plans owned by (org, project, owner). *)
Definition db_DeleteDraftPlans (orgId projectId userId : string) : M (error + unit) :=
  dbCall (CallDeleteDraftPlans orgId projectId userId)
         (fun w =>
            (setPlans (List.filter (fun p => negb (isDraftOf orgId projectId userId p))
                                   (World.plans w)) w, tt)).

Definition isOwnedIn (orgId projectId userId : string) (p : Plan.t) : bool :=
  String.eqb (Plan.OrgId p) orgId && inScope projectId userId p.

(** Modelled from the spec: [db.DeleteOwnerPlans] is not in this file; it
    deletes the rows of all plans owned by the owner in the project and, as
    owner-filtered bulk deletion does, the plan directories of the plans it
    deletes. *)
Definition db_DeleteOwnerPlans (orgId projectId userId : string) : M (error + unit) :=
  dbCall (CallDeleteOwnerPlans orgId projectId userId)
         (fun w =>
            let gone := List.filter (isOwnedIn orgId projectId userId) (World.plans w) in
            let kept := List.filter (fun p => negb (isOwnedIn orgId projectId userId p))
                                    (World.plans w) in
            let dirs :=
              List.filter
                (fun d => negb (String.eqb (fst d) orgId
                                && List.existsb (fun p => String.eqb (Plan.Id p) (snd d)) gone))
                (World.planDirs w) in
            (setPlanDirs dirs (setPlans kept w), tt)).

(** Modelled from the spec: [db.DeletePlanDir] is not in this file; it
    deletes the plan directory of the plan in the organization. *)
Definition db_DeletePlanDir (orgId planId : string) : M (error + unit) :=
  dbCall (CallDeletePlanDir orgId planId)
         (fun w =>
            (setPlanDirs
               (List.filter (fun d => negb (String.eqb (fst d) orgId && String.eqb (snd d) planId))
                            (World.planDirs w)) w, tt)).

(** [db.ListOwnedPlans(projectId, userId, includeArchived, filter)]: a read
    of the plans table; the answer is the environment's. *)
Definition db_ListOwnedPlans (projectId userId : string) (includeArchived : bool)
    (filter : string) : M (error + list Plan.t) :=
  fun w =>
    Some (logCall (CallListOwnedPlans projectId userId includeArchived filter) w,
          inr (Env.ListOwnedPlans E (World.plans w) projectId userId includeArchived filter)).

(** ** CreatePlanHandler *)

(** [log] calls are left out.  [json.Marshal] of the values the handlers
    answer with (records of strings, plans) does not fail, so the branches
    that report its error are left out too; a handler that returns without
    writing answers 200 with an empty body. *)

(** The [for { ... }] loop of the non-draft branch: [name] and [i] are the
    loop's variables, [originalName] the requested name. *)
Fixpoint resolveName (fuel : nat) (projectId userId originalName name : string) (i : Z)
    : M string :=
  match fuel with
  | O => fun _ => None
  | S fuel' =>
      res <- db_CountPlans projectId userId name ;;
      match res with
      | inl err =>
          http_Error ("Error checking if plan exists: " ++ err)
                     http.StatusInternalServerError
      | inr count =>
          if count =? 0 then ret name
          else resolveName fuel' projectId userId originalName
                           (originalName ++ "." ++ fmt_Sprint i) (wrap_int (i + 1))
      end
  end.

Definition trialPlansExceeded : ApiError.t :=
  ApiError.mk ApiErrorTypeTrialPlansExceeded http.StatusForbidden
              "User has reached max number of free trial plans"
              (Some (TrialPlansExceededError.mk TrialMaxPlans)).

(** The trial quota gate: the block guarded by [os.Getenv("IS_CLOUD") != ""]. *)
Definition trialQuotaGate (auth : ServerAuth.t) : M unit :=
  if negb (String.eqb (Env.IS_CLOUD E) "") then
    res <- db_GetUser (User.Id (ServerAuth.User auth)) ;;
    match res with
    | inl err =>
        http_Error ("Error getting user: " ++ err) http.StatusInternalServerError
    | inr user =>
        if User.IsTrial user then
          if User.NumNonDraftPlans user >=? TrialMaxPlans then
            writeApiError trialPlansExceeded
          else ret tt
        else ret tt
    end
  else ret tt.

(** The name resolver: the [if name == "draft" { ... } else { ... }] block. *)
Definition resolvePlanName (fuel : nat) (auth : ServerAuth.t) (projectId name : string)
    : M string :=
  if String.eqb name "draft" then
    res <- db_DeleteDraftPlans (ServerAuth.OrgId auth) projectId
                               (User.Id (ServerAuth.User auth)) ;;
    match res with
    | inl err =>
        http_Error ("Error deleting draft plans: " ++ err) http.StatusInternalServerError
    | inr _ => ret name
    end
  else
    resolveName fuel projectId (User.Id (ServerAuth.User auth)) name name 2.

Definition CreatePlanHandler (fuel : nat) (r : Request.t) : M Response.t :=
  auth <- lift (Env.authenticate E r) ;;
  if negb (ServerAuth.HasPermission auth PermissionCreatePlan) then
    http_Error "User does not have permission to create a plan" http.StatusForbidden
  else
  let projectId := vars_get (Request.Vars r) "projectId" in
  _ <- lift (Env.authorizeProject E projectId auth) ;;
  _ <- trialQuotaGate auth ;;
  match Request.Body r with
  | BodyUnreadable =>
      http_Error "Error reading request body" http.StatusInternalServerError
  | BodyMalformed =>
      http_Error "Error parsing request body" http.StatusBadRequest
  | BodyCreatePlan requestBody =>
      let name := CreatePlanRequest.Name requestBody in
      let name := if String.eqb name "" then "draft" else name in
      name <- resolvePlanName fuel auth projectId name ;;
      res <- db_CreatePlan (ServerAuth.OrgId auth) projectId
                           (User.Id (ServerAuth.User auth)) name ;;
      match res with
      | inl err =>
          http_Error ("Error creating plan: " ++ err) http.StatusInternalServerError
      | inr plan =>
          ret (Response.mk http.StatusOK
                 (PayloadCreatePlan (CreatePlanResponse.mk (Plan.Id plan) (Plan.Name plan))))
      end
  end.

(** ** GetPlanHandler *)

Definition GetPlanHandler (r : Request.t) : M Response.t :=
  auth <- lift (Env.authenticate E r) ;;
  let planId := vars_get (Request.Vars r) "planId" in
  plan <- (fun w => lift (Env.authorizePlan E (World.plans w) planId auth) w) ;;
  ret (Response.mk http.StatusOK (PayloadPlan plan)).

(** ** DeletePlanHandler *)

Definition DeletePlanHandler (r : Request.t) : M Response.t :=
  auth <- lift (Env.authenticate E r) ;;
  let planId := vars_get (Request.Vars r) "planId" in
  plan <- (fun w => lift (Env.authorizePlanDelete E (World.plans w) planId auth) w) ;;
  if negb (String.eqb (Plan.OwnerId plan) (User.Id (ServerAuth.User auth))) then
    http_Error "Only the plan owner can delete a plan" http.StatusForbidden
  else
  res <- db_ExecDeletePlan planId ;;
  match res with
  | inl err => http_Error ("Error deleting plan: " ++ err) http.StatusInternalServerError
  | inr res =>
      rows <- res_RowsAffected res ;;
      match rows with
      | inl err =>
          http_Error ("Error getting rows affected: " ++ err) http.StatusInternalServerError
      | inr rowsAffected =>
          if rowsAffected =? 0 then http_Error "Not found" http.StatusNotFound
          else
            res <- db_DeletePlanDir (ServerAuth.OrgId auth) planId ;;
            match res with
            | inl err =>
                http_Error ("Error deleting plan dir: " ++ err)
                           http.StatusInternalServerError
            | inr _ => ret (Response.mk http.StatusOK PayloadNone)
            end
      end
  end.

(** ** DeleteAllPlansHandler *)

Definition DeleteAllPlansHandler (r : Request.t) : M Response.t :=
  auth <- lift (Env.authenticate E r) ;;
  let projectId := vars_get (Request.Vars r) "projectId" in
  _ <- lift (Env.authorizeProject E projectId auth) ;;
  res <- db_DeleteOwnerPlans (ServerAuth.OrgId auth) projectId
                             (User.Id (ServerAuth.User auth)) ;;
  match res with
  | inl err => http_Error ("Error deleting plans: " ++ err) http.StatusInternalServerError
  | inr _ => ret (Response.mk http.StatusOK PayloadNone)
  end.

(** ** ListPlansHandler, ListArchivedPlansHandler, ListPlansRunningHandler *)

Definition ListPlansHandler (r : Request.t) : M Response.t :=
  auth <- lift (Env.authenticate E r) ;;
  let projectId := vars_get (Request.Vars r) "projectId" in
  _ <- lift (Env.authorizeProject E projectId auth) ;;
  res <- db_ListOwnedPlans projectId (User.Id (ServerAuth.User auth)) false "" ;;
  match res with
  | inl err => http_Error ("Error listing plans: " ++ err) http.StatusInternalServerError
  | inr plans => ret (Response.mk http.StatusOK (PayloadPlans plans))
  end.

Definition ListArchivedPlansHandler (r : Request.t) : M Response.t :=
  auth <- lift (Env.authenticate E r) ;;
  let projectId := vars_get (Request.Vars r) "projectId" in
  _ <- lift (Env.authorizeProject E projectId auth) ;;
  res <- db_ListOwnedPlans projectId "" true "" ;;
  match res with
  | inl err => http_Error ("Error listing plans: " ++ err) http.StatusInternalServerError
  | inr plans => ret (Response.mk http.StatusOK (PayloadPlans plans))
  end.

Definition ListPlansRunningHandler (r : Request.t) : M Response.t :=
  auth <- lift (Env.authenticate E r) ;;
  let projectId := vars_get (Request.Vars r) "projectId" in
  _ <- lift (Env.authorizeProject E projectId auth) ;;
  ret (Response.mk http.StatusOK PayloadNone).

End Handlers.

(** * Vocabulary of the statements *)

(** The names the loop tries, in order: [N], [N.2], [N.3], ... *)
Definition candidate (N : string) (j : nat) : string :=
  match j with
  | O => N
  | S _ => N ++ "." ++ fmt_Sprint (Z.of_nat j + 1)
  end.

(** The existence checks issued for the candidates [j], ..., [j + n - 1]. *)
Definition countCalls (projectId userId N : string) (j n : nat) : list Call :=
  List.map (fun t => CallCountPlans projectId userId (candidate N t)) (List.seq j n).

Definition moreCalls (w : World.t) (cs : list Call) : World.t :=
  World.mk (World.plans w) (World.planDirs w) (World.calls w ++ cs).

(** A store in which the names [N], [N.2], ..., [N.n] are all taken in the
    scope of one project and owner. *)
Definition crowded (projectId userId N : string) (n : nat) : list Plan.t :=
  List.map (fun t => Plan.mk "" "" userId projectId (candidate N t)) (List.seq 0 n).

(** The request passes authentication, the create-plan permission check and
    project authorization. *)
Definition createAllowed (E : Env.t) (r : Request.t) (auth : ServerAuth.t) : Prop :=
  Env.authenticate E r = inr auth /\
  ServerAuth.HasPermission auth PermissionCreatePlan = true /\
  Env.authorizeProject E (vars_get (Request.Vars r) "projectId") auth = inr tt.

(** The store operations the gate issues. *)
Definition gateCalls (E : Env.t) (auth : ServerAuth.t) : list Call :=
  if negb (String.eqb (Env.IS_CLOUD E) "") then [CallGetUser (User.Id (ServerAuth.User auth))] else [].

Definition quotaPermits (E : Env.t) (auth : ServerAuth.t) : Prop :=
  Env.IS_CLOUD E = "" \/
  exists user, Env.GetUser E (User.Id (ServerAuth.User auth)) = inr user /\
               (User.IsTrial user = false \/ User.NumNonDraftPlans user < 10).

Definition quotaExceeded : Response.t :=
  Response.mk 403
    (PayloadApiError
       (ApiError.mk ApiErrorTypeTrialPlansExceeded 403
          "User has reached max number of free trial plans"
          (Some (TrialPlansExceededError.mk 10)))).

(** The response of a listing handler to the store's answer. *)
Definition listResponse (res : error + list Plan.t) : Response.t :=
  match res with
  | inl err => Response.mk 500 (PayloadText ("Error listing plans: " ++ err))
  | inr plans => Response.mk 200 (PayloadPlans plans)
  end.





(** ** A concrete deployment, on which the handlers are run *)

Definition alice (trial : bool) (plans : Z) : User.t := User.mk "alice" trial plans.

Definition aliceAuth (trial : bool) (plans : Z) : ServerAuth.t :=
  ServerAuth.mk (alice trial plans) "acme" (fun _ => true).

(** Every request is Alice's, every project and the plan [authorized] are
    hers to use; [failing] says which store operations fail. *)
Definition deployment (cloud : string) (trial : bool) (plans : Z) (authorized : Plan.t)
    (failing : Call -> option error) : Env.t :=
  Env.mk cloud
         (fun _ => inr (aliceAuth trial plans))
         (fun _ _ => inr tt)
         (fun _ _ _ => inr authorized)
         (fun _ _ _ => inr authorized)
         (fun _ => inr (alice trial plans))
         (fun ps projectId userId _ _ =>
            inr (List.filter
                   (fun p => String.eqb (Plan.ProjectId p) projectId
                             && (String.eqb userId "" || String.eqb (Plan.OwnerId p) userId))
                   ps))
         failing
         (fun ps => "plan-" ++ fmt_Sprint (Z.of_nat (List.length ps) + 1)).

Definition request (projectId planId : string) (body : RequestBody) : Request.t :=
  Request.mk "Bearer alice" [("projectId", projectId); ("planId", planId)] body.

Definition plan1 : Plan.t := Plan.mk "plan-1" "acme" "alice" "web" "api".
Definition plan2 : Plan.t := Plan.mk "plan-2" "acme" "alice" "web" "api.2".
Definition plan3 : Plan.t := Plan.mk "plan-3" "acme" "alice" "web" "draft".
Definition bobsPlan : Plan.t := Plan.mk "plan-9" "acme" "bob" "web" "notes".
Definition stalePlan : Plan.t := Plan.mk "plan-7" "acme" "alice" "web" "old".

Definition store3 : World.t :=
  World.mk [plan1; plan2; plan3]
           [("acme", "plan-1"); ("acme", "plan-2"); ("acme", "plan-3")] [].



Definition healthy : Call -> option error := fun _ => None.

Definition diskFull : Call -> option error :=
  fun c => match c with CallDeletePlanDir _ _ => Some "disk full" | _ => None end.

(** ** Kinds of store operations *)

(** The operations that remove rows or directories. *)
Definition isDeletion (c : Call) : bool :=
  match c with
  | CallDeleteDraftPlans _ _ _ | CallExecDeletePlan _ | CallDeletePlanDir _ _
  | CallDeleteOwnerPlans _ _ _ => true
  | _ => false
  end.

Definition isCreationCall (c : Call) : bool :=
  match c with
  | CallGetUser _ | CallCountPlans _ _ _ | CallDeleteDraftPlans _ _ _
  | CallCreatePlan _ _ _ _ => true
  | _ => false
  end.

Definition isCreatePlan (c : Call) : bool :=
  match c with CallCreatePlan _ _ _ _ => true | _ => false end.

(** Between [w] and [w'] only operations of the given kind were issued. *)
Definition issuesOnly (kind : Call -> bool) (w w' : World.t) : Prop :=
  exists cs, World.calls w' = (World.calls w ++ cs)%list /\ List.forallb kind cs = true.

(** ** Further deployments *)

Definition site (cloud : string) (who : Response.t + ServerAuth.t)
    (project : Response.t + unit) (authorized : Response.t + Plan.t)
    (user : error + User.t) (failing : Call -> option error) : Env.t :=
  Env.mk cloud
         (fun _ => who)
         (fun _ _ => project)
         (fun _ _ _ => authorized)
         (fun _ _ _ => authorized)
         (fun _ => user)
         (fun ps _ _ _ _ => inr ps)
         failing
         (fun ps => "plan-" ++ fmt_Sprint (Z.of_nat (List.length ps) + 1)).

Definition unauthorized : Response.t := Response.mk 401 (PayloadText "Unauthorized").

Definition noProject : Response.t := Response.mk 404 (PayloadText "Project not found").

Definition readerAuth : ServerAuth.t :=
  ServerAuth.mk (alice false 0) "acme" (fun _ => false).

Definition failingOn (c0 : Call -> bool) (err : error) : Call -> option error :=
  fun c => if c0 c then Some err else None.

Definition isCountOf (name : string) (c : Call) : bool :=
  match c with CallCountPlans _ _ n => String.eqb n name | _ => false end.

Definition isDeleteDraftPlans (c : Call) : bool :=
  match c with CallDeleteDraftPlans _ _ _ => true | _ => false end.

Definition isRowsAffected (c : Call) : bool :=
  match c with CallRowsAffected => true | _ => false end.

(** An authorizer that looks the plan up in the plans table. *)
Definition findPlan (ps : list Plan.t) (planId : string) : Response.t + Plan.t :=
  match List.find (fun p => String.eqb (Plan.Id p) planId) ps with
  | Some p => inr p
  | None => inl (Response.mk 404 (PayloadText "Not found"))
  end.

Definition lookupDeployment : Env.t :=
  Env.mk ""
         (fun _ => inr (aliceAuth false 0))
         (fun _ _ => inr tt)
         (fun ps planId _ => findPlan ps planId)
         (fun ps planId _ => findPlan ps planId)
         (fun _ => inr (alice false 0))
         (fun ps _ _ _ _ => inr ps)
         healthy
         (fun ps => "plan-" ++ fmt_Sprint (Z.of_nat (List.length ps) + 1)).

(** * Properties *)

(** ** Numerals and names *)

Lemma wrap_int_small (z : Z) : - 2 ^ 63 <= z <= int_max -> wrap_int z = z.
Proof.
  unfold wrap_int, int_max. intros H.
  rewrite Z.mod_small; lia.
Qed.

Lemma to_int_proper (z : Z) :
  Z.to_int z <> Decimal.Pos Decimal.Nil /\ Z.to_int z <> Decimal.Neg Decimal.Nil.
Proof.
  destruct z as [|p|p]; simpl; split; try discriminate;
    intros H; injection H as H; exact (DecimalPos.Unsigned.to_uint_nonnil p H).
Qed.

Lemma fmt_Sprint_inj (a b : Z) : fmt_Sprint a = fmt_Sprint b -> a = b.
Proof.
  unfold fmt_Sprint. intros H.
  apply DecimalZ.to_int_inj.
  destruct (to_int_proper a) as [Ha1 Ha2], (to_int_proper b) as [Hb1 Hb2].
  pose proof (NilZero.isi _ Ha1 Ha2) as Ia.
  pose proof (NilZero.isi _ Hb1 Hb2) as Ib.
  rewrite H in Ia. rewrite Ia in Ib. now injection Ib.
Qed.

Lemma append_inj_l (s a b : string) : s ++ a = s ++ b -> a = b.
Proof.
  induction s as [|c s IH]; simpl; intros H.
  - exact H.
  - injection H as H. auto.
Qed.

Lemma append_length (s t : string) :
  String.length (s ++ t) = (String.length s + String.length t)%nat.
Proof.
  induction s as [|c s IH]; simpl; [reflexivity | now rewrite IH].
Qed.

Lemma candidate_inj (N : string) (a b : nat) : candidate N a = candidate N b -> a = b.
Proof.
  destruct a as [|a], b as [|b]; simpl candidate; intros H.
  - reflexivity.
  - apply (f_equal String.length) in H. rewrite append_length in H. simpl in H. lia.
  - apply (f_equal String.length) in H. rewrite append_length in H. simpl in H. lia.
  - apply append_inj_l in H. simpl in H. injection H as H.
    apply fmt_Sprint_inj in H. lia.
Qed.

Example candidate_3 : candidate "api" 2 = "api.3".
Proof. reflexivity. Qed.

(** ** The existence check *)

Lemma countPlans_zero_iff (projectId userId name : string) (ps : list Plan.t) :
  countPlans projectId userId name ps = 0 <->
  forall p, In p ps -> hasName projectId userId name p = false.
Proof.
  unfold countPlans. split.
  - intros H p Hp. destruct (hasName projectId userId name p) eqn:Hn; [|reflexivity].
    assert (Hin : In p (List.filter (hasName projectId userId name) ps))
      by (apply filter_In; auto).
    destruct (List.filter (hasName projectId userId name) ps); [contradiction|].
    simpl in H. discriminate.
  - intros H. induction ps as [|q ps IH]; [reflexivity|].
    simpl. rewrite (H q (or_introl eq_refl)). apply IH.
    intros p Hp. apply H. now right.
Qed.

Lemma countPlans_nonzero (projectId userId name : string) (ps : list Plan.t) :
  countPlans projectId userId name ps <> 0 ->
  exists p, In p ps /\ hasName projectId userId name p = true.
Proof.
  unfold countPlans. intros H.
  destruct (List.filter (hasName projectId userId name) ps) as [|p l] eqn:Hf.
  - now destruct H.
  - exists p. apply filter_In. rewrite Hf. now left.
Qed.

Lemma hasName_spec (projectId userId name : string) (p : Plan.t) :
  hasName projectId userId name p = true <->
  Plan.ProjectId p = projectId /\ Plan.OwnerId p = userId /\ Plan.Name p = name.
Proof.
  unfold hasName, inScope. rewrite !andb_true_iff, !String.eqb_eq. tauto.
Qed.


Lemma countPlans_app (projectId userId name : string) (ps qs : list Plan.t) :
  countPlans projectId userId name (ps ++ qs) =
  countPlans projectId userId name ps + countPlans projectId userId name qs.
Proof.
  unfold countPlans. rewrite filter_app, length_app. lia.
Qed.


(** Among the first [length ps + 1] candidates one is free, since they are
    pairwise different and each taken one is the name of a stored plan. *)
Lemma least_or_none (P : nat -> Prop) (dec : forall t, {P t} + {~ P t}) (n : nat) :
  (exists m, (m <= n)%nat /\ P m /\ forall t, (t < m)%nat -> ~ P t) \/
  (forall t, (t <= n)%nat -> ~ P t).
Proof.
  induction n as [|n IH].
  - destruct (dec O) as [H0|H0].
    + left. exists O. repeat split; [lia | assumption | intros; lia].
    + right. intros t Ht. assert (t = O) by lia. now subst.
  - destruct IH as [(m & Hm & HP & Hlt)|Hnone].
    + left. exists m. repeat split; [lia | assumption | assumption].
    + destruct (dec (S n)) as [HS|HS].
      * left. exists (S n). repeat split; [lia | assumption |].
        intros t Ht. apply Hnone. lia.
      * right. intros t Ht. destruct (Nat.eq_dec t (S n)) as [->|Hne];
          [assumption | apply Hnone; lia].
Qed.

Lemma first_free_candidate (projectId userId N : string) (ps : list Plan.t) :
  exists m, (m <= List.length ps)%nat /\
    countPlans projectId userId (candidate N m) ps = 0 /\
    forall t, (t < m)%nat -> countPlans projectId userId (candidate N t) ps <> 0.
Proof.
  destruct (least_or_none
              (fun t => countPlans projectId userId (candidate N t) ps = 0)
              (fun t => Z.eq_dec _ _) (List.length ps)) as [H|H]; [exact H|].
  exfalso.
  set (tried := List.map (candidate N) (List.seq 0 (S (List.length ps)))).
  assert (Hnd : NoDup tried).
  { apply Finite.Injective_map_NoDup; [|apply seq_NoDup].
    intros a b. apply candidate_inj. }
  assert (Hincl : incl tried (List.map Plan.Name ps)).
  { intros s Hs. apply in_map_iff in Hs. destruct Hs as (t & <- & Ht).
    apply in_seq in Ht.
    destruct (countPlans_nonzero projectId userId (candidate N t) ps) as (p & Hp & Hn).
    - apply H. lia.
    - apply hasName_spec in Hn. destruct Hn as (_ & _ & <-). now apply in_map. }
  pose proof (NoDup_incl_length Hnd Hincl) as Hlen.
  unfold tried in Hlen. rewrite !length_map, length_seq in Hlen. lia.
Qed.

(** ** The name-resolution loop *)

Section NameResolution.

Variable E : Env.t.
Variables projectId userId N : string.

Lemma moreCalls_logCall (w : World.t) (c : Call) (cs : list Call) :
  moreCalls (logCall c w) cs = moreCalls w (c :: cs).
Proof.
  unfold moreCalls, logCall. simpl. now rewrite <- app_assoc.
Qed.

Lemma candidate_next (j : nat) :
  N ++ "." ++ fmt_Sprint (Z.of_nat j + 2) = candidate N (S j).
Proof.
  unfold candidate. do 3 f_equal. lia.
Qed.

Lemma resolveName_step (fuel : nat) (name : string) (i : Z) (w : World.t) :
  resolveName E (S fuel) projectId userId N name i w =
  match Env.dbErr E (CallCountPlans projectId userId name) with
  | Some err =>
      Some (logCall (CallCountPlans projectId userId name) w,
            inl (Response.mk http.StatusInternalServerError
                   (PayloadText ("Error checking if plan exists: " ++ err))))
  | None =>
      if countPlans projectId userId name (World.plans w) =? 0
      then Some (logCall (CallCountPlans projectId userId name) w, inr name)
      else resolveName E fuel projectId userId N (N ++ "." ++ fmt_Sprint i)
                       (wrap_int (i + 1)) (logCall (CallCountPlans projectId userId name) w)
  end.
Proof.
  cbn [resolveName]. unfold bind, db_CountPlans, dbCall.
  destruct (Env.dbErr E (CallCountPlans projectId userId name)); [reflexivity|].
  cbn [World.plans logCall].
  destruct (countPlans projectId userId name (World.plans w) =? 0); reflexivity.
Qed.

(** When the candidates [j], ..., [j + gap - 1] are taken, candidate
    [j + gap] is free and no existence check fails, the loop entered at
    candidate [j] returns candidate [j + gap] after [gap + 1] checks. *)
Lemma resolveName_run (gap : nat) : forall (j fuel : nat) (w : World.t),
  (gap < fuel)%nat ->
  Z.of_nat (j + gap) + 2 <= int_max ->
  (forall t, (j <= t < j + gap)%nat ->
             countPlans projectId userId (candidate N t) (World.plans w) <> 0) ->
  countPlans projectId userId (candidate N (j + gap)) (World.plans w) = 0 ->
  (forall t, (j <= t <= j + gap)%nat ->
             Env.dbErr E (CallCountPlans projectId userId (candidate N t)) = None) ->
  resolveName E fuel projectId userId N (candidate N j) (Z.of_nat j + 2) w =
  Some (moreCalls w (countCalls projectId userId N j (S gap)), inr (candidate N (j + gap))).
Proof.
  induction gap as [|gap IH]; intros j fuel w Hfuel Hmax Htaken Hfree Hok;
    (destruct fuel as [|fuel]; [lia|]); rewrite resolveName_step;
    rewrite (Hok j) by lia.
  - rewrite Nat.add_0_r in *. rewrite Hfree. cbn [Z.eqb].
    unfold moreCalls, logCall, countCalls. reflexivity.
  - assert (Hj : countPlans projectId userId (candidate N j) (World.plans w) <> 0)
      by (apply Htaken; lia).
    apply Z.eqb_neq in Hj. rewrite Hj.
    rewrite candidate_next.
    rewrite wrap_int_small by (unfold int_max in *; lia).
    replace (Z.of_nat j + 2 + 1) with (Z.of_nat (S j) + 2) by lia.
    rewrite (IH (S j) fuel).
    + rewrite moreCalls_logCall.
      replace (S j + gap)%nat with (j + S gap)%nat by lia. reflexivity.
    + lia.
    + replace (S j + gap)%nat with (j + S gap)%nat by lia. exact Hmax.
    + intros t Ht. apply Htaken. lia.
    + replace (S j + gap)%nat with (j + S gap)%nat by lia. exact Hfree.
    + intros t Ht. apply Hok. lia.
Qed.

(** Whatever the store answers, the loop entered at candidate [j] ends
    within [gap + 1] iterations when candidate [j + gap] is free; it only
    issues existence checks and leaves the store as it is. *)
Lemma resolveName_total (gap : nat) : forall (j fuel : nat) (w : World.t),
  (gap < fuel)%nat ->
  Z.of_nat (j + gap) + 2 <= int_max ->
  countPlans projectId userId (candidate N (j + gap)) (World.plans w) = 0 ->
  exists n out,
    resolveName E fuel projectId userId N (candidate N j) (Z.of_nat j + 2) w =
    Some (moreCalls w (countCalls projectId userId N j n), out).
Proof.
  induction gap as [|gap IH]; intros j fuel w Hfuel Hmax Hfree;
    (destruct fuel as [|fuel]; [lia|]); rewrite resolveName_step;
    (destruct (Env.dbErr E (CallCountPlans projectId userId (candidate N j)));
     [exists 1%nat; eexists; reflexivity|]).
  - rewrite Nat.add_0_r in *. rewrite Hfree. cbn [Z.eqb].
    exists 1%nat. eexists. reflexivity.
  - destruct (countPlans projectId userId (candidate N j) (World.plans w) =? 0).
    + exists 1%nat. eexists. reflexivity.
    + rewrite candidate_next.
      rewrite wrap_int_small by (unfold int_max in *; lia).
      replace (Z.of_nat j + 2 + 1) with (Z.of_nat (S j) + 2) by lia.
      destruct (IH (S j) fuel (logCall (CallCountPlans projectId userId (candidate N j)) w))
        as (n & out & Hrun).
      * lia.
      * replace (S j + gap)%nat with (j + S gap)%nat by lia. exact Hmax.
      * replace (S j + gap)%nat with (j + S gap)%nat by lia. exact Hfree.
      * exists (S n), out. rewrite Hrun, moreCalls_logCall. reflexivity.
Qed.

End NameResolution.

Lemma moreCalls_nil (w : World.t) : moreCalls w [] = w.
Proof. destruct w. unfold moreCalls. simpl. now rewrite app_nil_r. Qed.

Lemma moreCalls_app (w : World.t) (cs ds : list Call) :
  moreCalls (moreCalls w cs) ds = moreCalls w (cs ++ ds).
Proof. unfold moreCalls. simpl. now rewrite app_assoc. Qed.

Lemma logCall_moreCalls (w : World.t) (c : Call) : logCall c w = moreCalls w [c].
Proof. reflexivity. Qed.

(** ** Plan creation *)

Section Creation.

Variable E : Env.t.
Variable r : Request.t.
Variable auth : ServerAuth.t.

Local Abbreviation projectId := (vars_get (Request.Vars r) "projectId").
Local Abbreviation userId := (User.Id (ServerAuth.User auth)).
Local Abbreviation orgId := (ServerAuth.OrgId auth).

Lemma trialQuotaGate_permits (w : World.t) :
  quotaPermits E auth -> trialQuotaGate E auth w = Some (moreCalls w (gateCalls E auth), inr tt).
Proof.
  unfold quotaPermits, trialQuotaGate, gateCalls.
  intros [Hc | (user & Hu & Hq)].
  - rewrite Hc. cbn. now rewrite moreCalls_nil.
  - destruct (String.eqb (Env.IS_CLOUD E) ""); cbn [negb].
    + cbn. now rewrite moreCalls_nil.
    + unfold bind, db_GetUser. rewrite Hu.
      destruct Hq as [Ht | Hn].
      * rewrite Ht. reflexivity.
      * destruct (User.IsTrial user); [|reflexivity].
        unfold TrialMaxPlans.
        destruct (Z.geb_spec (User.NumNonDraftPlans user) 10); [lia | reflexivity].
Qed.

Lemma trialQuotaGate_refuses (user : User.t) (w : World.t) :
  Env.IS_CLOUD E <> "" ->
  Env.GetUser E userId = inr user ->
  User.IsTrial user = true ->
  10 <= User.NumNonDraftPlans user ->
  trialQuotaGate E auth w = Some (logCall (CallGetUser userId) w, inl quotaExceeded).
Proof.
  intros Hc Hu Ht Hn. unfold trialQuotaGate.
  apply String.eqb_neq in Hc. rewrite Hc. cbn [negb].
  unfold bind, db_GetUser. rewrite Hu, Ht. unfold TrialMaxPlans.
  destruct (Z.geb_spec (User.NumNonDraftPlans user) 10); [reflexivity | lia].
Qed.

(** The gate only reads: whatever it decides, it leaves plans and plan
    directories as they are and issues at most the user lookup. *)
Lemma trialQuotaGate_reads (w : World.t) :
  exists out, trialQuotaGate E auth w = Some (moreCalls w (gateCalls E auth), out).
Proof.
  unfold trialQuotaGate, gateCalls.
  destruct (String.eqb (Env.IS_CLOUD E) ""); cbn [negb].
  - eexists. cbn. now rewrite moreCalls_nil.
  - unfold bind, db_GetUser. rewrite logCall_moreCalls.
    destruct (Env.GetUser E userId) as [err|user]; [eexists; reflexivity|].
    destruct (User.IsTrial user); [|eexists; reflexivity].
    destruct (User.NumNonDraftPlans user >=? TrialMaxPlans); eexists; reflexivity.
Qed.

(** After the three access checks the handler is the gate followed by the
    rest of the procedure. *)
Lemma CreatePlanHandler_allowed (fuel : nat) (w : World.t) :
  createAllowed E r auth ->
  CreatePlanHandler E fuel r w =
  match trialQuotaGate E auth w with
  | None => None
  | Some (w1, inl resp) => Some (w1, inl resp)
  | Some (w1, inr _) =>
      match Request.Body r with
      | BodyUnreadable =>
          http_Error "Error reading request body" http.StatusInternalServerError w1
      | BodyMalformed =>
          http_Error "Error parsing request body" http.StatusBadRequest w1
      | BodyCreatePlan requestBody =>
          let name := CreatePlanRequest.Name requestBody in
          let name := if String.eqb name "" then "draft" else name in
          match resolvePlanName E fuel auth projectId name w1 with
          | None => None
          | Some (w2, inl resp) => Some (w2, inl resp)
          | Some (w2, inr name) =>
              match Env.dbErr E (CallCreatePlan orgId projectId userId name) with
              | Some err =>
                  Some (logCall (CallCreatePlan orgId projectId userId name) w2,
                        inl (Response.mk 500 (PayloadText ("Error creating plan: " ++ err))))
              | None =>
                  let plan := Plan.mk (Env.newPlanId E (World.plans w2))
                                      orgId userId projectId name in
                  Some (World.mk (World.plans w2 ++ [plan]) (World.planDirs w2)
                                 (World.calls w2 ++ [CallCreatePlan orgId projectId userId name]),
                        inr (Response.mk 200
                               (PayloadCreatePlan
                                  (CreatePlanResponse.mk (Env.newPlanId E (World.plans w2)) name))))
              end
          end
      end
  end.
Proof.
  intros (Ha & Hp & Hz).
  unfold CreatePlanHandler, bind at 1, lift at 1. rewrite Ha, Hp. cbn [negb].
  unfold bind at 1, lift at 1. rewrite Hz.
  unfold bind at 1.
  destruct (trialQuotaGate E auth w) as [[w1 [resp|[]]]|]; try reflexivity.
  destruct (Request.Body r) as [| |requestBody]; try reflexivity.
  cbv zeta. unfold bind at 1.
  destruct (resolvePlanName E fuel auth projectId _ w1) as [[w2 [resp|name]]|];
    try reflexivity.
  unfold bind, db_CreatePlan, dbCall.
  destruct (Env.dbErr E (CallCreatePlan orgId projectId userId name)); reflexivity.
Qed.

End Creation.

Lemma crowded_taken (projectId userId N : string) (n t : nat) :
  (t < n)%nat ->
  countPlans projectId userId (candidate N t) (crowded projectId userId N n) <> 0.
Proof.
  intros Ht H. rewrite countPlans_zero_iff in H.
  specialize (H (Plan.mk "" "" userId projectId (candidate N t))).
  unfold hasName, inScope in H. cbn in H. rewrite !String.eqb_refl in H.
  discriminate H. unfold crowded. apply in_map_iff. exists t. split; [reflexivity|].
  apply in_seq. lia.
Qed.

Lemma crowded_free (projectId userId N : string) (n : nat) :
  countPlans projectId userId (candidate N n) (crowded projectId userId N n) = 0.
Proof.
  apply countPlans_zero_iff. intros p Hp.
  unfold crowded in Hp. apply in_map_iff in Hp. destruct Hp as (t & <- & Ht).
  apply in_seq in Ht.
  destruct (hasName projectId userId (candidate N n) _) eqn:Hn; [|reflexivity].
  apply hasName_spec in Hn. destruct Hn as (_ & _ & Hn). cbn in Hn.
  apply candidate_inj in Hn. lia.
Qed.

Section CreationTheorems.

Variable E : Env.t.

(** C1. A non-draft requested name [N]: when no plan named [N] exists in
    the scope of (project id, owner id), the created plan is named [N]; when
    the names [N], [N.2], ..., [N.k] exist there and [N.(k+1)] does not, the
    name-resolution loop returns [N.(k+1)] and the created plan is named
    [N.(k+1)].  Here [j] counts the taken names, so [j = 0] is the first
    case and [j = k >= 1] the second. *)
Theorem create_plan_resolves_name (r : Request.t) (auth : ServerAuth.t) (w : World.t)
    (N : string) (j fuel : nat) :
  createAllowed E r auth ->
  quotaPermits E auth ->
  Request.Body r = BodyCreatePlan (CreatePlanRequest.mk N) ->
  N <> "" -> N <> "draft" ->
  (forall c, Env.dbErr E c = None) ->
  (forall t, (t < j)%nat ->
     countPlans (vars_get (Request.Vars r) "projectId") (User.Id (ServerAuth.User auth))
                (candidate N t) (World.plans w) <> 0) ->
  countPlans (vars_get (Request.Vars r) "projectId") (User.Id (ServerAuth.User auth))
             (candidate N j) (World.plans w) = 0 ->
  Z.of_nat j + 2 <= int_max ->
  (j < fuel)%nat ->
  exists name w1 w2,
    (j = O -> name = N) /\
    ((1 <= j)%nat -> name = N ++ "." ++ fmt_Sprint (Z.of_nat j + 1)) /\
    resolveName E fuel (vars_get (Request.Vars r) "projectId")
                (User.Id (ServerAuth.User auth)) N N 2
                (moreCalls w (gateCalls E auth)) = Some (w1, inr name) /\
    run (CreatePlanHandler E fuel r) w =
      Some (w2, Response.mk 200
                  (PayloadCreatePlan
                     (CreatePlanResponse.mk (Env.newPlanId E (World.plans w)) name))) /\
    World.plans w2 =
      (World.plans w ++
       [Plan.mk (Env.newPlanId E (World.plans w)) (ServerAuth.OrgId auth)
                (User.Id (ServerAuth.User auth)) (vars_get (Request.Vars r) "projectId") name])%list.
Proof.
  intros Hallowed Hquota Hbody Hne Hnd Hok Htaken Hfree Hmax Hfuel.
  pose proof (resolveName_run E (vars_get (Request.Vars r) "projectId")
                (User.Id (ServerAuth.User auth)) N j 0 fuel
                (moreCalls w (gateCalls E auth)) Hfuel) as Hrun.
  cbn [Nat.add Z.of_nat Z.add candidate] in Hrun.
  specialize (Hrun Hmax).
  assert (Hloop := Hrun (fun t Ht => Htaken t (proj2 Ht)) Hfree (fun t _ => Hok _)).
  clear Hrun.
  exists (candidate N j). do 2 eexists.
  split; [intros ->; reflexivity|].
  split; [intros Hj; destruct j; [lia | reflexivity]|].
  split; [exact Hloop|].
  unfold run. rewrite (CreatePlanHandler_allowed E r auth fuel w Hallowed).
  rewrite (trialQuotaGate_permits E auth w Hquota), Hbody. cbv zeta.
  cbn [CreatePlanRequest.Name].
  apply String.eqb_neq in Hne, Hnd. rewrite Hne. unfold resolvePlanName. rewrite Hnd.
  rewrite Hloop, Hok. cbn [World.plans moreCalls].
  split; reflexivity.
Qed.

(** C2. A requested name that is empty or ["draft"]: the handler first
    deletes all existing draft plans for (org id, project id, owner id),
    then creates a plan named exactly ["draft"]; the suffix loop is never
    entered (no fuel is needed and no existence check is issued), and no
    previously existing draft of that scope remains. *)
Theorem create_draft_replaces_drafts (r : Request.t) (auth : ServerAuth.t) (w : World.t)
    (requested : string) (fuel : nat) :
  createAllowed E r auth ->
  quotaPermits E auth ->
  Request.Body r = BodyCreatePlan (CreatePlanRequest.mk requested) ->
  requested = "" \/ requested = "draft" ->
  (forall c, Env.dbErr E c = None) ->
  let orgId := ServerAuth.OrgId auth in
  let projectId := vars_get (Request.Vars r) "projectId" in
  let userId := User.Id (ServerAuth.User auth) in
  let kept := List.filter (fun p => negb (isDraftOf orgId projectId userId p)) (World.plans w) in
  let plan := Plan.mk (Env.newPlanId E kept) orgId userId projectId "draft" in
  run (CreatePlanHandler E fuel r) w =
    Some (World.mk (kept ++ [plan]) (World.planDirs w)
            (World.calls w ++ gateCalls E auth ++
               [CallDeleteDraftPlans orgId projectId userId;
                CallCreatePlan orgId projectId userId "draft"]),
          Response.mk 200
            (PayloadCreatePlan (CreatePlanResponse.mk (Env.newPlanId E kept) "draft"))) /\
  (forall p, In p kept -> isDraftOf orgId projectId userId p = false) /\
  incl kept (World.plans w).
Proof.
  intros Hallowed Hquota Hbody Hreq Hok orgId projectId userId kept plan.
  split; [|split].
  - unfold run. rewrite (CreatePlanHandler_allowed E r auth fuel w Hallowed).
    rewrite (trialQuotaGate_permits E auth w Hquota), Hbody. cbv zeta.
    cbn [CreatePlanRequest.Name].
    assert (Hname : (if String.eqb requested "" then "draft" else requested) = "draft")
      by (destruct Hreq as [-> | ->]; reflexivity).
    rewrite Hname. unfold resolvePlanName. cbn [String.eqb Ascii.eqb Bool.eqb].
    unfold bind, db_DeleteDraftPlans, dbCall, ret. rewrite !Hok.
    cbn [World.plans World.planDirs World.calls moreCalls logCall setPlans].
    fold orgId projectId userId. fold kept. fold plan.
    rewrite <- !app_assoc. reflexivity.
  - intros p Hp. apply filter_In in Hp. destruct Hp as [_ Hp].
    now apply negb_true_iff in Hp.
  - intros p Hp. apply filter_In in Hp. tauto.
Qed.

End CreationTheorems.

Section QuotaTheorems.

Variable E : Env.t.

(** C3. The trial quota gate permits plan creation if and only if cloud
    mode is disabled, or the user is not on trial, or the user's non-draft
    plan count is below 10.  When it refuses, the response is the structured
    TrialPlansExceeded error with MaxPlans = 10 and status Forbidden, and
    that is the response of the handler.  In particular a trial user with
    count 10 under cloud mode is refused, with count 9 is permitted, and
    with cloud mode disabled nobody is refused. *)
Theorem trial_quota_gate (r : Request.t) (auth : ServerAuth.t) (user : User.t)
    (w : World.t) (fuel : nat) :
  (Env.IS_CLOUD E <> "" -> Env.GetUser E (User.Id (ServerAuth.User auth)) = inr user) ->
  let permitted := exists w', trialQuotaGate E auth w = Some (w', inr tt) in
  let refused :=
    trialQuotaGate E auth w =
    Some (logCall (CallGetUser (User.Id (ServerAuth.User auth))) w,
          inl (Response.mk http.StatusForbidden
                 (PayloadApiError
                    (ApiError.mk ApiErrorTypeTrialPlansExceeded http.StatusForbidden
                       "User has reached max number of free trial plans"
                       (Some (TrialPlansExceededError.mk 10)))))) in
  (permitted <->
     Env.IS_CLOUD E = "" \/ User.IsTrial user = false \/ User.NumNonDraftPlans user < 10) /\
  (~ permitted -> refused) /\
  (refused -> createAllowed E r auth ->
     run (CreatePlanHandler E fuel r) w =
     Some (logCall (CallGetUser (User.Id (ServerAuth.User auth))) w,
           Response.mk 403
             (PayloadApiError
                (ApiError.mk ApiErrorTypeTrialPlansExceeded 403
                   "User has reached max number of free trial plans"
                   (Some (TrialPlansExceededError.mk 10)))))) /\
  (Env.IS_CLOUD E <> "" -> User.IsTrial user = true ->
     User.NumNonDraftPlans user = 10 -> refused) /\
  (Env.IS_CLOUD E <> "" -> User.IsTrial user = true ->
     User.NumNonDraftPlans user = 9 -> permitted) /\
  (Env.IS_CLOUD E = "" -> permitted).
Proof.
  intros Huser permitted refused.
  assert (Hyes : Env.IS_CLOUD E = "" \/ User.IsTrial user = false \/
                 User.NumNonDraftPlans user < 10 -> permitted).
  { intros H. exists (moreCalls w (gateCalls E auth)).
    apply trialQuotaGate_permits. unfold quotaPermits.
    destruct (String.eqb_spec (Env.IS_CLOUD E) "") as [Hc|Hc]; [now left|].
    right. exists user. split; [auto|]. destruct H as [H|H]; [contradiction | exact H]. }
  assert (Hno : ~ (Env.IS_CLOUD E = "" \/ User.IsTrial user = false \/
                   User.NumNonDraftPlans user < 10) -> refused).
  { intros H. destruct (String.eqb_spec (Env.IS_CLOUD E) "") as [Hc|Hc]; [tauto|].
    apply (trialQuotaGate_refuses E auth user w Hc (Huser Hc)).
    - destruct (User.IsTrial user); [reflexivity | tauto].
    - lia. }
  assert (Hexcl : refused -> ~ permitted).
  { unfold refused, permitted. intros Hr (w' & Hp). rewrite Hr in Hp. discriminate Hp. }
  assert (Hdec : Env.IS_CLOUD E = "" \/ User.IsTrial user = false \/
                 User.NumNonDraftPlans user < 10 \/
                 ~ (Env.IS_CLOUD E = "" \/ User.IsTrial user = false \/
                    User.NumNonDraftPlans user < 10)).
  { destruct (String.eqb_spec (Env.IS_CLOUD E) ""); [tauto|].
    destruct (User.IsTrial user); [|tauto].
    destruct (Z_lt_ge_dec (User.NumNonDraftPlans user) 10); [tauto|].
    right. right. right. intros [H|[H|H]]; [contradiction | discriminate | lia]. }
  repeat split.
  - intros Hp. destruct Hdec as [H|[H|[H|H]]]; auto.
    destruct (Hexcl (Hno H) Hp).
  - exact Hyes.
  - intros Hp. destruct Hdec as [H|[H|[H|H]]]; auto;
      destruct Hp; apply Hyes; auto.
  - intros Hr Hallowed. unfold run.
    rewrite (CreatePlanHandler_allowed E r auth fuel w Hallowed).
    unfold refused in Hr. rewrite Hr. reflexivity.
  - intros Hc Ht Hn. apply Hno. intros [H|[H|H]]; [contradiction | congruence | lia].
  - intros Hc Ht Hn. apply Hyes. right. right. lia.
  - intros Hc. apply Hyes. now left.
Qed.

(** C5. When the trial quota gate fails (cloud mode enabled, user on
    trial, non-draft plan count at least 10) the handler ends with the quota
    error before any mutation: the only store operation issued is the user
    lookup, neither DeleteDraftPlans nor CreatePlan is invoked, and plans
    and plan directories are unchanged.  The gate itself only reads,
    whatever it decides. *)
Theorem quota_failure_short_circuits (r : Request.t) (auth : ServerAuth.t)
    (user : User.t) (w : World.t) (fuel : nat) :
  createAllowed E r auth ->
  Env.IS_CLOUD E <> "" ->
  Env.GetUser E (User.Id (ServerAuth.User auth)) = inr user ->
  User.IsTrial user = true ->
  10 <= User.NumNonDraftPlans user ->
  (exists w',
     run (CreatePlanHandler E fuel r) w = Some (w', quotaExceeded) /\
     World.plans w' = World.plans w /\
     World.planDirs w' = World.planDirs w /\
     World.calls w' =
       (World.calls w ++ [CallGetUser (User.Id (ServerAuth.User auth))])%list /\
     List.existsb isMutation [CallGetUser (User.Id (ServerAuth.User auth))] = false) /\
  (forall a w0, exists w1 out,
     trialQuotaGate E a w0 = Some (w1, out) /\
     World.plans w1 = World.plans w0 /\
     World.planDirs w1 = World.planDirs w0 /\
     exists cs, World.calls w1 = (World.calls w0 ++ cs)%list /\
                List.existsb isMutation cs = false).
Proof.
  intros Hallowed Hc Hu Ht Hn. split.
  - exists (logCall (CallGetUser (User.Id (ServerAuth.User auth))) w).
    repeat split. unfold run.
    rewrite (CreatePlanHandler_allowed E r auth fuel w Hallowed).
    rewrite (trialQuotaGate_refuses E auth user w Hc Hu Ht Hn). reflexivity.
  - intros a w0. destruct (trialQuotaGate_reads E a w0) as (out & Hout).
    exists (moreCalls w0 (gateCalls E a)), out. repeat split; [exact Hout|].
    exists (gateCalls E a). split; [reflexivity|].
    unfold gateCalls. destruct (negb _); reflexivity.
Qed.

End QuotaTheorems.

Section LoopTheorems.

Variable E : Env.t.

(** C8. The collision-avoidance loop has no bound on its iterations: for
    every [n] (within the range of [int]) there is a store on which it
    issues [n + 1] existence checks.  Yet on every store it ends: within
    [length plans + 1] iterations it stops, and when no existence check
    fails it returns the first name of [N], [N.2], [N.3], ... that no
    existing plan of the scope bears. *)
Theorem resolveName_terminates (projectId userId N : string) (w : World.t) :
  Z.of_nat (List.length (World.plans w)) + 2 <= int_max ->
  (exists m,
     (m <= List.length (World.plans w))%nat /\
     countPlans projectId userId (candidate N m) (World.plans w) = 0 /\
     (forall t, (t < m)%nat ->
        countPlans projectId userId (candidate N t) (World.plans w) <> 0) /\
     (forall fuel, (List.length (World.plans w) < fuel)%nat ->
        exists n out,
          resolveName E fuel projectId userId N N 2 w =
          Some (moreCalls w (countCalls projectId userId N 0 n), out)) /\
     ((forall c, Env.dbErr E c = None) ->
      forall fuel, (m < fuel)%nat ->
        resolveName E fuel projectId userId N N 2 w =
        Some (moreCalls w (countCalls projectId userId N 0 (S m)), inr (candidate N m)))) /\
  (forall n, Z.of_nat n + 2 <= int_max ->
     (forall c, Env.dbErr E c = None) ->
     forall fuel, (n < fuel)%nat ->
       resolveName E fuel projectId userId N N 2
                   (World.mk (crowded projectId userId N n) [] []) =
       Some (World.mk (crowded projectId userId N n) []
                      (countCalls projectId userId N 0 (S n)),
             inr (candidate N n)) /\
       List.length (countCalls projectId userId N 0 (S n)) = S n).
Proof.
  intros Hmax. split.
  - destruct (first_free_candidate projectId userId N (World.plans w))
      as (m & Hm & Hfree & Htaken).
    exists m. repeat split; try assumption.
    + intros fuel Hfuel.
      apply (resolveName_total E projectId userId N m 0 fuel w); [lia | | exact Hfree].
      cbn [Nat.add]. lia.
    + intros Hok fuel Hfuel.
      apply (resolveName_run E projectId userId N m 0 fuel w); auto.
      * cbn [Nat.add]. lia.
      * intros t Ht. apply Htaken. lia.
  - intros n Hn Hok fuel Hfuel. split.
    + apply (resolveName_run E projectId userId N n 0 fuel
               (World.mk (crowded projectId userId N n) [] [])); auto.
      * intros t Ht. apply crowded_taken. lia.
      * apply crowded_free.
    + unfold countCalls. now rewrite length_map, length_seq.
Qed.

End LoopTheorems.

(** ** Deletion and listing *)

Lemma filter_none {A} (f : A -> bool) (l : list A) :
  (forall x, In x l -> f x = false) -> List.filter f l = [].
Proof.
  induction l as [|a l IH]; intros H; [reflexivity|].
  simpl. rewrite (H a (or_introl eq_refl)). apply IH. intros x Hx. apply H. now right.
Qed.

Lemma filter_all {A} (f : A -> bool) (l : list A) :
  (forall x, In x l -> f x = true) -> List.filter f l = l.
Proof.
  induction l as [|a l IH]; intros H; [reflexivity|].
  simpl. rewrite (H a (or_introl eq_refl)). f_equal. apply IH. intros x Hx. apply H. now right.
Qed.

Section DeletionAndListing.

Variable E : Env.t.

(** The single-plan deletion after authentication, plan authorization and
    the owner check. *)
Lemma DeletePlanHandler_owner (r : Request.t) (auth : ServerAuth.t) (plan : Plan.t)
    (w : World.t) :
  Env.authenticate E r = inr auth ->
  Env.authorizePlanDelete E (World.plans w) (vars_get (Request.Vars r) "planId") auth
    = inr plan ->
  Plan.OwnerId plan = User.Id (ServerAuth.User auth) ->
  Env.dbErr E (CallExecDeletePlan (vars_get (Request.Vars r) "planId")) = None ->
  Env.dbErr E CallRowsAffected = None ->
  let planId := vars_get (Request.Vars r) "planId" in
  let kept := List.filter (fun p => negb (String.eqb (Plan.Id p) planId)) (World.plans w) in
  let gone := List.filter (fun p => String.eqb (Plan.Id p) planId) (World.plans w) in
  let w1 := World.mk kept (World.planDirs w)
                     (World.calls w ++ [CallExecDeletePlan planId; CallRowsAffected]) in
  DeletePlanHandler E r w =
  if Z.of_nat (List.length gone) =? 0 then http_Error "Not found" http.StatusNotFound w1
  else
    (res <- db_DeletePlanDir E (ServerAuth.OrgId auth) planId ;;
     match res with
     | inl err =>
         http_Error ("Error deleting plan dir: " ++ err) http.StatusInternalServerError
     | inr _ => ret (Response.mk http.StatusOK PayloadNone)
     end) w1.
Proof.
  intros Ha Hp Ho He Hr planId kept gone w1.
  unfold DeletePlanHandler, bind at 1, lift at 1. rewrite Ha.
  unfold bind at 1, lift at 1. fold planId. fold planId in Hp, He. rewrite Hp, Ho.
  rewrite String.eqb_refl. cbn [negb].
  unfold bind at 1, db_ExecDeletePlan, dbCall. rewrite He.
  unfold bind at 1, res_RowsAffected, dbCall. rewrite Hr.
  cbn [World.plans World.planDirs World.calls logCall setPlans]. fold kept gone.
  assert (Hw : logCall CallRowsAffected (setPlans kept (logCall (CallExecDeletePlan planId) w))
               = w1).
  { unfold w1, logCall, setPlans. cbn [World.plans World.planDirs World.calls].
    now rewrite <- app_assoc. }
  rewrite Hw. destruct (Z.of_nat (List.length gone) =? 0); reflexivity.
Qed.

(** C6. Single-plan deletion: when the authorized plan's owner is not the
    caller, the handler answers Forbidden and nothing at all is done; when
    the row deletion affects no row, it answers NotFound, the plans are as
    before and no plan directory is deleted. *)
Theorem delete_plan_refusals (r : Request.t) (auth : ServerAuth.t) (plan : Plan.t)
    (w : World.t) :
  Env.authenticate E r = inr auth ->
  Env.authorizePlanDelete E (World.plans w) (vars_get (Request.Vars r) "planId") auth
    = inr plan ->
  (Plan.OwnerId plan <> User.Id (ServerAuth.User auth) ->
   run (DeletePlanHandler E r) w =
   Some (w, Response.mk 403 (PayloadText "Only the plan owner can delete a plan"))) /\
  (Plan.OwnerId plan = User.Id (ServerAuth.User auth) ->
   Env.dbErr E (CallExecDeletePlan (vars_get (Request.Vars r) "planId")) = None ->
   Env.dbErr E CallRowsAffected = None ->
   (forall p, In p (World.plans w) -> Plan.Id p <> vars_get (Request.Vars r) "planId") ->
   exists w',
     run (DeletePlanHandler E r) w = Some (w', Response.mk 404 (PayloadText "Not found")) /\
     World.plans w' = World.plans w /\
     World.planDirs w' = World.planDirs w /\
     World.calls w' =
       (World.calls w ++
        [CallExecDeletePlan (vars_get (Request.Vars r) "planId"); CallRowsAffected])%list /\
     List.existsb isDeletePlanDir
       [CallExecDeletePlan (vars_get (Request.Vars r) "planId"); CallRowsAffected] = false).
Proof.
  intros Ha Hp. split.
  - intros Ho. unfold run, DeletePlanHandler, bind at 1, lift at 1. rewrite Ha.
    unfold bind at 1, lift at 1. rewrite Hp.
    apply String.eqb_neq in Ho. rewrite Ho. reflexivity.
  - intros Ho He Hr Hnone. unfold run.
    rewrite (DeletePlanHandler_owner r auth plan w Ha Hp Ho He Hr). cbv zeta.
    rewrite (filter_none (fun p => String.eqb (Plan.Id p) _) (World.plans w))
      by (intros p Hin; apply String.eqb_neq; auto).
    rewrite (filter_all (fun p => negb (String.eqb (Plan.Id p) _)) (World.plans w))
      by (intros p Hin; apply negb_true_iff, String.eqb_neq; auto).
    cbn. eexists. repeat split.
Qed.

(** C7. Single-plan deletion: when the row is deleted and the deletion of
    the plan directory then fails, the handler answers with a server error
    and the row stays deleted. *)
Theorem delete_plan_dir_failure_keeps_row_deleted (r : Request.t) (auth : ServerAuth.t)
    (plan : Plan.t) (w : World.t) (err : error) :
  Env.authenticate E r = inr auth ->
  Env.authorizePlanDelete E (World.plans w) (vars_get (Request.Vars r) "planId") auth
    = inr plan ->
  Plan.OwnerId plan = User.Id (ServerAuth.User auth) ->
  Env.dbErr E (CallExecDeletePlan (vars_get (Request.Vars r) "planId")) = None ->
  Env.dbErr E CallRowsAffected = None ->
  (exists p, In p (World.plans w) /\ Plan.Id p = vars_get (Request.Vars r) "planId") ->
  Env.dbErr E (CallDeletePlanDir (ServerAuth.OrgId auth)
                                 (vars_get (Request.Vars r) "planId")) = Some err ->
  exists w',
    run (DeletePlanHandler E r) w =
      Some (w', Response.mk 500 (PayloadText ("Error deleting plan dir: " ++ err))) /\
    World.plans w' =
      List.filter (fun p => negb (String.eqb (Plan.Id p) (vars_get (Request.Vars r) "planId")))
                  (World.plans w) /\
    (forall p, In p (World.plans w') -> Plan.Id p <> vars_get (Request.Vars r) "planId") /\
    (List.length (World.plans w') < List.length (World.plans w))%nat.
Proof.
  intros Ha Hp Ho He Hr (p0 & Hin0 & Hid0) Hd. unfold run.
  rewrite (DeletePlanHandler_owner r auth plan w Ha Hp Ho He Hr). cbv zeta.
  set (planId := vars_get (Request.Vars r) "planId") in *.
  assert (Hgone : In p0 (List.filter (fun p => String.eqb (Plan.Id p) planId) (World.plans w)))
    by (apply filter_In; split; [assumption | now apply String.eqb_eq]).
  destruct (List.filter (fun p => String.eqb (Plan.Id p) planId) (World.plans w))
    as [|g gone] eqn:Hg; [contradiction|].
  cbn [List.length]. rewrite Nat2Z.inj_succ.
  destruct (Z.eqb_spec (Z.succ (Z.of_nat (List.length gone))) 0) as [Hz|_]; [lia|].
  unfold bind, db_DeletePlanDir, dbCall. rewrite Hd.
  eexists. split; [reflexivity|]. cbn [World.plans logCall].
  split; [reflexivity|]. split.
  - intros p Hin. apply filter_In in Hin. destruct Hin as [_ Hin].
    now apply negb_true_iff, String.eqb_neq in Hin.
  - pose proof (filter_length (fun p => String.eqb (Plan.Id p) planId) (World.plans w)) as Hl.
    rewrite Hg in Hl. cbn [List.length] in Hl. lia.
Qed.


(** C9. The ordinary listing asks the store for the plans of the project
    with the caller's user id and includeArchived = false; the archived
    listing asks with the empty owner id and includeArchived = true.  So the
    archived listing does not depend on who the caller is: any two
    authorized requests for the same project get the same answer. *)
Theorem archived_listing_not_owner_scoped (r : Request.t) (auth : ServerAuth.t)
    (w : World.t) :
  Env.authenticate E r = inr auth ->
  Env.authorizeProject E (vars_get (Request.Vars r) "projectId") auth = inr tt ->
  run (ListPlansHandler E r) w =
    Some (logCall (CallListOwnedPlans (vars_get (Request.Vars r) "projectId")
                                      (User.Id (ServerAuth.User auth)) false "") w,
          listResponse (Env.ListOwnedPlans E (World.plans w)
                          (vars_get (Request.Vars r) "projectId")
                          (User.Id (ServerAuth.User auth)) false "")) /\
  run (ListArchivedPlansHandler E r) w =
    Some (logCall (CallListOwnedPlans (vars_get (Request.Vars r) "projectId") "" true "") w,
          listResponse (Env.ListOwnedPlans E (World.plans w)
                          (vars_get (Request.Vars r) "projectId") "" true "")) /\
  (forall r' auth',
     Env.authenticate E r' = inr auth' ->
     vars_get (Request.Vars r') "projectId" = vars_get (Request.Vars r) "projectId" ->
     Env.authorizeProject E (vars_get (Request.Vars r) "projectId") auth' = inr tt ->
     run (ListArchivedPlansHandler E r') w = run (ListArchivedPlansHandler E r) w).
Proof.
  intros Ha Hz.
  assert (Harch : forall r' auth',
            Env.authenticate E r' = inr auth' ->
            vars_get (Request.Vars r') "projectId" = vars_get (Request.Vars r) "projectId" ->
            Env.authorizeProject E (vars_get (Request.Vars r) "projectId") auth' = inr tt ->
            run (ListArchivedPlansHandler E r') w =
            Some (logCall (CallListOwnedPlans (vars_get (Request.Vars r) "projectId")
                                              "" true "") w,
                  listResponse (Env.ListOwnedPlans E (World.plans w)
                                  (vars_get (Request.Vars r) "projectId") "" true ""))).
  { intros r' auth' Ha' Hv Hz'.
    unfold run, ListArchivedPlansHandler, bind at 1, lift at 1. rewrite Ha'.
    unfold bind at 1, lift at 1. rewrite Hv, Hz'.
    unfold bind, db_ListOwnedPlans.
    destruct (Env.ListOwnedPlans E _ _ _ _ _); reflexivity. }
  split; [|split].
  - clear Harch. unfold run, ListPlansHandler, bind at 1, lift at 1. rewrite Ha.
    unfold bind at 1, lift at 1. rewrite Hz.
    unfold bind, db_ListOwnedPlans.
    destruct (Env.ListOwnedPlans E (World.plans w) (vars_get (Request.Vars r) "projectId")
                                 (User.Id (ServerAuth.User auth)) false "");
      reflexivity.
  - apply (Harch r auth Ha eq_refl Hz).
  - intros r' auth' Ha' Hv Hz'.
    rewrite (Harch r' auth' Ha' Hv Hz'). symmetry. apply (Harch r auth Ha eq_refl Hz).
Qed.

End DeletionAndListing.

(** ** Uniqueness of names within a scope *)








Section Invariant.

Variable E : Env.t.

(** A name the loop returns was reported unused by the existence check. *)
Lemma resolveName_sound (projectId userId N : string) (fuel : nat) :
  forall (name : string) (i : Z) (w w' : World.t) (out : string),
    resolveName E fuel projectId userId N name i w = Some (w', inr out) ->
    countPlans projectId userId out (World.plans w) = 0.
Proof.
  induction fuel as [|fuel IH]; intros name i w w' out H; [discriminate H|].
  rewrite resolveName_step in H.
  destruct (Env.dbErr E (CallCountPlans projectId userId name)); [discriminate H|].
  destruct (Z.eqb_spec (countPlans projectId userId name (World.plans w)) 0) as [H0|_].
  - injection H as _ <-. exact H0.
  - apply IH in H. exact H.
Qed.






End Invariant.

(** * The theorems on the concrete deployment *)

(** Alice asks for "api" while "api" and "api.2" exist: she gets "api.3". *)
Lemma create_plan_resolves_name_witness :
  exists w2,
    run (CreatePlanHandler (deployment "" false 0 plan1 healthy) 3
           (request "web" "" (BodyCreatePlan (CreatePlanRequest.mk "api")))) store3 =
    Some (w2, Response.mk 200
                (PayloadCreatePlan (CreatePlanResponse.mk "plan-4" "api.3"))).
Proof.
  destruct (create_plan_resolves_name (deployment "" false 0 plan1 healthy)
              (request "web" "" (BodyCreatePlan (CreatePlanRequest.mk "api")))
              (aliceAuth false 0) store3 "api" 2 3)
    as (name & w1 & w2 & _ & Hname & _ & Hrun & _).
  - repeat split; reflexivity.
  - left. reflexivity.
  - reflexivity.
  - discriminate.
  - discriminate.
  - reflexivity.
  - intros t Ht. destruct t as [|[|t]]; [vm_compute; discriminate | vm_compute; discriminate | lia].
  - vm_compute. reflexivity.
  - vm_compute. discriminate.
  - lia.
  - exists w2. rewrite Hrun, (Hname (le_S 1 1 (le_n 1))). reflexivity.
Defined.

(** Alice asks for the empty name: her draft is replaced. *)
Lemma create_draft_replaces_drafts_witness :
  run (CreatePlanHandler (deployment "" false 0 plan1 healthy) 0
         (request "web" "" (BodyCreatePlan (CreatePlanRequest.mk "")))) store3 =
  Some (World.mk [plan1; plan2; Plan.mk "plan-3" "acme" "alice" "web" "draft"]
                 (World.planDirs store3)
                 [CallDeleteDraftPlans "acme" "web" "alice";
                  CallCreatePlan "acme" "web" "alice" "draft"],
        Response.mk 200 (PayloadCreatePlan (CreatePlanResponse.mk "plan-3" "draft"))).
Proof.
  apply (create_draft_replaces_drafts (deployment "" false 0 plan1 healthy)
           (request "web" "" (BodyCreatePlan (CreatePlanRequest.mk "")))
           (aliceAuth false 0) store3 "" 0).
  - repeat split; reflexivity.
  - left. reflexivity.
  - reflexivity.
  - left. reflexivity.
  - reflexivity.
Defined.

(** Under cloud mode a trial user with ten plans is refused. *)
Lemma trial_quota_gate_witness :
  trialQuotaGate (deployment "1" true 10 plan1 healthy) (aliceAuth true 10) store3 =
  Some (logCall (CallGetUser "alice") store3,
        inl (Response.mk 403
               (PayloadApiError
                  (ApiError.mk ApiErrorTypeTrialPlansExceeded 403
                     "User has reached max number of free trial plans"
                     (Some (TrialPlansExceededError.mk 10)))))).
Proof.
  apply (trial_quota_gate (deployment "1" true 10 plan1 healthy)
           (request "web" "" BodyMalformed) (aliceAuth true 10) (alice true 10) store3 0).
  - reflexivity.
  - discriminate.
  - reflexivity.
  - reflexivity.
Defined.



(** The refused trial user leaves the store as it was. *)
Lemma quota_failure_short_circuits_witness :
  exists w',
    run (CreatePlanHandler (deployment "1" true 12 plan1 healthy) 0
           (request "web" "" (BodyCreatePlan (CreatePlanRequest.mk "api")))) store3 =
    Some (w', quotaExceeded) /\
    World.plans w' = World.plans store3 /\
    World.planDirs w' = World.planDirs store3 /\
    World.calls w' = (World.calls store3 ++ [CallGetUser "alice"])%list /\
    List.existsb isMutation [CallGetUser "alice"] = false.
Proof.
  apply (quota_failure_short_circuits (deployment "1" true 12 plan1 healthy)
           (request "web" "" (BodyCreatePlan (CreatePlanRequest.mk "api")))
           (aliceAuth true 12) (alice true 12) store3 0).
  - repeat split; reflexivity.
  - discriminate.
  - reflexivity.
  - reflexivity.
  - vm_compute. discriminate.
Defined.

(** Alice may not delete Bob's plan, and deleting a plan whose row is gone
    is NotFound. *)
Lemma delete_plan_refusals_witness :
  run (DeletePlanHandler (deployment "" false 0 bobsPlan healthy)
         (request "web" "plan-9" BodyMalformed)) store3 =
  Some (store3, Response.mk 403 (PayloadText "Only the plan owner can delete a plan")) /\
  exists w',
    run (DeletePlanHandler (deployment "" false 0 stalePlan healthy)
           (request "web" "plan-7" BodyMalformed)) store3 =
    Some (w', Response.mk 404 (PayloadText "Not found")) /\
    World.plans w' = World.plans store3 /\
    World.planDirs w' = World.planDirs store3.
Proof.
  split.
  - apply (delete_plan_refusals (deployment "" false 0 bobsPlan healthy)
             (request "web" "plan-9" BodyMalformed) (aliceAuth false 0) bobsPlan store3
             eq_refl eq_refl).
    discriminate.
  - destruct (proj2 (delete_plan_refusals (deployment "" false 0 stalePlan healthy)
                       (request "web" "plan-7" BodyMalformed) (aliceAuth false 0) stalePlan
                       store3 eq_refl eq_refl))
      as (w' & Hrun & Hplans & Hdirs & _).
    + reflexivity.
    + reflexivity.
    + reflexivity.
    + intros p [<-|[<-|[<-|[]]]]; discriminate.
    + exists w'. auto.
Defined.

(** The disk is full: the answer is a server error and the row is gone. *)
Lemma delete_plan_dir_failure_keeps_row_deleted_witness :
  exists w',
    run (DeletePlanHandler (deployment "" false 0 plan1 diskFull)
           (request "web" "plan-1" BodyMalformed)) store3 =
    Some (w', Response.mk 500 (PayloadText "Error deleting plan dir: disk full")) /\
    World.plans w' = [plan2; plan3].
Proof.
  destruct (delete_plan_dir_failure_keeps_row_deleted (deployment "" false 0 plan1 diskFull)
              (request "web" "plan-1" BodyMalformed) (aliceAuth false 0) plan1 store3
              "disk full")
    as (w' & Hrun & Hplans & _).
  - reflexivity.
  - reflexivity.
  - reflexivity.
  - reflexivity.
  - reflexivity.
  - exists plan1. split; [left; reflexivity | reflexivity].
  - reflexivity.
  - exists w'. split; [exact Hrun | rewrite Hplans; reflexivity].
Defined.

(** With "api" and "api.2" taken the loop makes three checks. *)
Lemma resolveName_terminates_witness :
  resolveName (deployment "" false 0 plan1 healthy) 3 "web" "alice" "api" "api" 2
              (World.mk (crowded "web" "alice" "api" 2) [] []) =
  Some (World.mk (crowded "web" "alice" "api" 2) []
                 (countCalls "web" "alice" "api" 0 3),
        inr "api.3").
Proof.
  apply (proj2 (resolveName_terminates (deployment "" false 0 plan1 healthy)
                  "web" "alice" "api" store3 ltac:(vm_compute; discriminate))
               2%nat ltac:(vm_compute; discriminate) (fun _ => eq_refl) 3%nat
               (le_n 3)).
Defined.

(** The archived listing of project "web" asks for every owner's plans. *)
Lemma archived_listing_not_owner_scoped_witness :
  run (ListArchivedPlansHandler (deployment "" false 0 plan1 healthy)
         (request "web" "" BodyMalformed)) store3 =
  Some (logCall (CallListOwnedPlans "web" "" true "") store3,
        Response.mk 200 (PayloadPlans [plan1; plan2; plan3])).
Proof.
  apply (archived_listing_not_owner_scoped (deployment "" false 0 plan1 healthy)
           (request "web" "" BodyMalformed) (aliceAuth false 0) store3 eq_refl eq_refl).
Defined.



(** * Further properties of the handlers *)

(** ** Refusals before any store operation *)

Section Refusals.

Variable E : Env.t.

(** X1. When authentication refuses, every handler ends with the
    response the authentication helper wrote and does nothing else. *)
Theorem authentication_refusal_ends_every_handler (r : Request.t) (w : World.t)
    (resp : Response.t) (fuel : nat) :
  Env.authenticate E r = inl resp ->
  run (CreatePlanHandler E fuel r) w = Some (w, resp) /\
  run (GetPlanHandler E r) w = Some (w, resp) /\
  run (DeletePlanHandler E r) w = Some (w, resp) /\
  run (DeleteAllPlansHandler E r) w = Some (w, resp) /\
  run (ListPlansHandler E r) w = Some (w, resp) /\
  run (ListArchivedPlansHandler E r) w = Some (w, resp) /\
  run (ListPlansRunningHandler E r) w = Some (w, resp).
Proof.
  intros Ha.
  unfold run, CreatePlanHandler, GetPlanHandler, DeletePlanHandler, DeleteAllPlansHandler,
    ListPlansHandler, ListArchivedPlansHandler, ListPlansRunningHandler, bind, lift.
  rewrite Ha. repeat split.
Qed.

(** X2. A caller without the create-plan permission is answered
    Forbidden by the creation handler, whatever the project, the quota and
    the body are, and nothing is done. *)
Theorem create_without_permission_is_forbidden (r : Request.t) (auth : ServerAuth.t)
    (w : World.t) (fuel : nat) :
  Env.authenticate E r = inr auth ->
  ServerAuth.HasPermission auth PermissionCreatePlan = false ->
  run (CreatePlanHandler E fuel r) w =
  Some (w, Response.mk 403 (PayloadText "User does not have permission to create a plan")).
Proof.
  intros Ha Hp. unfold run, CreatePlanHandler, bind, lift. rewrite Ha, Hp. reflexivity.
Qed.

(** X3. When project authorization refuses, the handlers of a project
    (creation by a permitted caller, bulk deletion and the three listings)
    end with the response the authorization helper wrote and do nothing
    else: no user lookup, no deletion, no listing. *)
Theorem project_refusal_ends_project_handlers (r : Request.t) (auth : ServerAuth.t)
    (w : World.t) (resp : Response.t) (fuel : nat) :
  Env.authenticate E r = inr auth ->
  Env.authorizeProject E (vars_get (Request.Vars r) "projectId") auth = inl resp ->
  (ServerAuth.HasPermission auth PermissionCreatePlan = true ->
   run (CreatePlanHandler E fuel r) w = Some (w, resp)) /\
  run (DeleteAllPlansHandler E r) w = Some (w, resp) /\
  run (ListPlansHandler E r) w = Some (w, resp) /\
  run (ListArchivedPlansHandler E r) w = Some (w, resp) /\
  run (ListPlansRunningHandler E r) w = Some (w, resp).
Proof.
  intros Ha Hz.
  unfold run, CreatePlanHandler, DeleteAllPlansHandler,
    ListPlansHandler, ListArchivedPlansHandler, ListPlansRunningHandler, bind, lift.
  rewrite Ha, Hz. repeat split. intros ->. reflexivity.
Qed.

End Refusals.

(** ** Failures during creation *)

Section CreationFailures.

Variable E : Env.t.

(** The loop entered at candidate [j] reports the error of the first
    failing existence check, when the candidates before it are taken. *)
Lemma resolveName_fails (projectId userId N : string) (err : error) (gap : nat) :
  forall (j fuel : nat) (w : World.t),
  (gap < fuel)%nat ->
  Z.of_nat (j + gap) + 2 <= int_max ->
  (forall t, (j <= t < j + gap)%nat ->
     countPlans projectId userId (candidate N t) (World.plans w) <> 0 /\
     Env.dbErr E (CallCountPlans projectId userId (candidate N t)) = None) ->
  Env.dbErr E (CallCountPlans projectId userId (candidate N (j + gap))) = Some err ->
  resolveName E fuel projectId userId N (candidate N j) (Z.of_nat j + 2) w =
  Some (moreCalls w (countCalls projectId userId N j (S gap)),
        inl (Response.mk 500 (PayloadText ("Error checking if plan exists: " ++ err)))).
Proof.
  induction gap as [|gap IH]; intros j fuel w Hfuel Hmax Htaken Herr;
    (destruct fuel as [|fuel]; [lia|]); rewrite resolveName_step.
  - rewrite Nat.add_0_r in Herr. rewrite Herr. reflexivity.
  - destruct (Htaken j) as [Hj Hok]; [lia|].
    rewrite Hok. apply Z.eqb_neq in Hj. rewrite Hj.
    rewrite candidate_next.
    rewrite wrap_int_small by (unfold int_max in *; lia).
    replace (Z.of_nat j + 2 + 1) with (Z.of_nat (S j) + 2) by lia.
    rewrite (IH (S j) fuel).
    + rewrite moreCalls_logCall. reflexivity.
    + lia.
    + replace (S j + gap)%nat with (j + S gap)%nat by lia. exact Hmax.
    + intros t Ht. apply Htaken. lia.
    + replace (S j + gap)%nat with (j + S gap)%nat by lia. exact Herr.
Qed.

(** X4. Once the access checks and the quota gate are passed, a body that
    cannot be read is a server error and a body that is not JSON is a bad
    request; neither touches plans or directories, and no operation beyond
    the gate's user lookup is issued. *)
Theorem create_body_errors (r : Request.t) (auth : ServerAuth.t) (w : World.t)
    (fuel : nat) :
  createAllowed E r auth ->
  quotaPermits E auth ->
  (Request.Body r = BodyUnreadable ->
   run (CreatePlanHandler E fuel r) w =
   Some (moreCalls w (gateCalls E auth),
         Response.mk 500 (PayloadText "Error reading request body"))) /\
  (Request.Body r = BodyMalformed ->
   run (CreatePlanHandler E fuel r) w =
   Some (moreCalls w (gateCalls E auth),
         Response.mk 400 (PayloadText "Error parsing request body"))).
Proof.
  intros Hallowed Hquota. unfold run.
  rewrite (CreatePlanHandler_allowed E r auth fuel w Hallowed).
  rewrite (trialQuotaGate_permits E auth w Hquota).
  split; intros ->; reflexivity.
Qed.

(** X5. Under cloud mode a failing user lookup is a server error carrying
    the store's message; the body is not looked at and nothing is changed. *)
Theorem create_user_lookup_failure (r : Request.t) (auth : ServerAuth.t) (w : World.t)
    (fuel : nat) (err : error) :
  createAllowed E r auth ->
  Env.IS_CLOUD E <> "" ->
  Env.GetUser E (User.Id (ServerAuth.User auth)) = inl err ->
  run (CreatePlanHandler E fuel r) w =
  Some (logCall (CallGetUser (User.Id (ServerAuth.User auth))) w,
        Response.mk 500 (PayloadText ("Error getting user: " ++ err))).
Proof.
  intros Hallowed Hc Hu. unfold run.
  rewrite (CreatePlanHandler_allowed E r auth fuel w Hallowed).
  unfold trialQuotaGate. apply String.eqb_neq in Hc. rewrite Hc. cbn [negb].
  unfold bind, db_GetUser. rewrite Hu. reflexivity.
Qed.

(** X6. When the names [N], [N.2], ..., [N.j] are taken and the
    existence check of the next candidate fails, the handler answers with a
    server error carrying the store's message, after exactly [j + 1]
    checks; no plan is created and the plans are as before. *)
Theorem create_existence_check_failure (r : Request.t) (auth : ServerAuth.t)
    (w : World.t) (N : string) (j fuel : nat) (err : error) :
  createAllowed E r auth ->
  quotaPermits E auth ->
  Request.Body r = BodyCreatePlan (CreatePlanRequest.mk N) ->
  N <> "" -> N <> "draft" ->
  (forall t, (t < j)%nat ->
     countPlans (vars_get (Request.Vars r) "projectId") (User.Id (ServerAuth.User auth))
                (candidate N t) (World.plans w) <> 0 /\
     Env.dbErr E (CallCountPlans (vars_get (Request.Vars r) "projectId")
                                 (User.Id (ServerAuth.User auth)) (candidate N t)) = None) ->
  Env.dbErr E (CallCountPlans (vars_get (Request.Vars r) "projectId")
                              (User.Id (ServerAuth.User auth)) (candidate N j)) = Some err ->
  Z.of_nat j + 2 <= int_max ->
  (j < fuel)%nat ->
  run (CreatePlanHandler E fuel r) w =
  Some (moreCalls w (gateCalls E auth ++
                     countCalls (vars_get (Request.Vars r) "projectId")
                                (User.Id (ServerAuth.User auth)) N 0 (S j)),
        Response.mk 500 (PayloadText ("Error checking if plan exists: " ++ err))).
Proof.
  intros Hallowed Hquota Hbody Hne Hnd Htaken Herr Hmax Hfuel.
  unfold run. rewrite (CreatePlanHandler_allowed E r auth fuel w Hallowed).
  rewrite (trialQuotaGate_permits E auth w Hquota), Hbody. cbv zeta.
  cbn [CreatePlanRequest.Name].
  apply String.eqb_neq in Hne, Hnd. rewrite Hne. unfold resolvePlanName. rewrite Hnd.
  pose proof (resolveName_fails (vars_get (Request.Vars r) "projectId")
                (User.Id (ServerAuth.User auth)) N err j 0 fuel
                (moreCalls w (gateCalls E auth)) Hfuel) as Hrun.
  cbn [Nat.add Z.of_nat Z.add candidate] in Hrun.
  rewrite (Hrun Hmax (fun t Ht => Htaken t (proj2 Ht)) Herr).
  now rewrite moreCalls_app.
Qed.

(** X7. For a draft request, a failing deletion of the old drafts is a
    server error and ends the handler: no plan is created. *)
Theorem create_draft_deletion_failure (r : Request.t) (auth : ServerAuth.t)
    (w : World.t) (requested : string) (fuel : nat) (err : error) :
  createAllowed E r auth ->
  quotaPermits E auth ->
  Request.Body r = BodyCreatePlan (CreatePlanRequest.mk requested) ->
  requested = "" \/ requested = "draft" ->
  Env.dbErr E (CallDeleteDraftPlans (ServerAuth.OrgId auth)
                 (vars_get (Request.Vars r) "projectId")
                 (User.Id (ServerAuth.User auth))) = Some err ->
  run (CreatePlanHandler E fuel r) w =
  Some (moreCalls w (gateCalls E auth ++
                     [CallDeleteDraftPlans (ServerAuth.OrgId auth)
                        (vars_get (Request.Vars r) "projectId")
                        (User.Id (ServerAuth.User auth))]),
        Response.mk 500 (PayloadText ("Error deleting draft plans: " ++ err))).
Proof.
  intros Hallowed Hquota Hbody Hreq Herr.
  unfold run. rewrite (CreatePlanHandler_allowed E r auth fuel w Hallowed).
  rewrite (trialQuotaGate_permits E auth w Hquota), Hbody. cbv zeta.
  cbn [CreatePlanRequest.Name].
  assert (Hname : (if String.eqb requested "" then "draft" else requested) = "draft")
    by (destruct Hreq as [-> | ->]; reflexivity).
  rewrite Hname. unfold resolvePlanName. cbn [String.eqb Ascii.eqb Bool.eqb].
  unfold bind, db_DeleteDraftPlans, dbCall. rewrite Herr.
  rewrite logCall_moreCalls, moreCalls_app. reflexivity.
Qed.

(** X8. For a draft request, when the old drafts are deleted and the
    creation then fails, the handler answers with a server error and the
    old drafts stay deleted: the deletion is not undone. *)
Theorem create_draft_failure_loses_drafts (r : Request.t) (auth : ServerAuth.t)
    (w : World.t) (requested : string) (fuel : nat) (err : error) :
  createAllowed E r auth ->
  quotaPermits E auth ->
  Request.Body r = BodyCreatePlan (CreatePlanRequest.mk requested) ->
  requested = "" \/ requested = "draft" ->
  Env.dbErr E (CallDeleteDraftPlans (ServerAuth.OrgId auth)
                 (vars_get (Request.Vars r) "projectId")
                 (User.Id (ServerAuth.User auth))) = None ->
  Env.dbErr E (CallCreatePlan (ServerAuth.OrgId auth)
                 (vars_get (Request.Vars r) "projectId")
                 (User.Id (ServerAuth.User auth)) "draft") = Some err ->
  exists w',
    run (CreatePlanHandler E fuel r) w =
      Some (w', Response.mk 500 (PayloadText ("Error creating plan: " ++ err))) /\
    World.plans w' =
      List.filter (fun p => negb (isDraftOf (ServerAuth.OrgId auth)
                                    (vars_get (Request.Vars r) "projectId")
                                    (User.Id (ServerAuth.User auth)) p))
                  (World.plans w) /\
    (forall p, In p (World.plans w') ->
       isDraftOf (ServerAuth.OrgId auth) (vars_get (Request.Vars r) "projectId")
                 (User.Id (ServerAuth.User auth)) p = false) /\
    World.calls w' =
      (World.calls w ++ gateCalls E auth ++
       [CallDeleteDraftPlans (ServerAuth.OrgId auth)
          (vars_get (Request.Vars r) "projectId") (User.Id (ServerAuth.User auth));
        CallCreatePlan (ServerAuth.OrgId auth)
          (vars_get (Request.Vars r) "projectId") (User.Id (ServerAuth.User auth))
          "draft"])%list.
Proof.
  intros Hallowed Hquota Hbody Hreq Hdel Herr.
  unfold run. rewrite (CreatePlanHandler_allowed E r auth fuel w Hallowed).
  rewrite (trialQuotaGate_permits E auth w Hquota), Hbody. cbv zeta.
  cbn [CreatePlanRequest.Name].
  assert (Hname : (if String.eqb requested "" then "draft" else requested) = "draft")
    by (destruct Hreq as [-> | ->]; reflexivity).
  rewrite Hname. unfold resolvePlanName. cbn [String.eqb Ascii.eqb Bool.eqb].
  unfold bind, db_DeleteDraftPlans, dbCall, ret. rewrite Hdel, Herr.
  eexists. split; [reflexivity|].
  cbn [World.plans World.calls moreCalls logCall setPlans].
  split; [reflexivity|]. split.
  - intros p Hp. apply filter_In in Hp. destruct Hp as [_ Hp].
    now apply negb_true_iff in Hp.
  - now rewrite <- !app_assoc.
Qed.

End CreationFailures.

(** ** What creation does to the store *)

Lemma prefix_append (s t : string) : String.prefix s (s ++ t) = true.
Proof.
  induction s as [|c s IH]; simpl.
  - now destruct t.
  - destruct (Ascii.ascii_dec c c) as [_|Hc]; [exact IH | now destruct Hc].
Qed.

Lemma prefix_refl (s : string) : String.prefix s s = true.
Proof.
  induction s as [|c s IH]; simpl; [reflexivity|].
  destruct (Ascii.ascii_dec c c) as [_|Hc]; [exact IH | now destruct Hc].
Qed.

Lemma list_ascii_of_string_app (s t : string) :
  list_ascii_of_string (s ++ t) = (list_ascii_of_string s ++ list_ascii_of_string t)%list.
Proof.
  induction s as [|c s IH]; simpl; [reflexivity | now rewrite IH].
Qed.

Lemma suffixed_not_draft (N s : string) : N ++ "." ++ s <> "draft".
Proof.
  intros H. apply (f_equal list_ascii_of_string) in H.
  rewrite list_ascii_of_string_app in H.
  assert (Hin : In "."%char (list_ascii_of_string "draft")).
  { rewrite <- H. apply in_or_app. right. simpl. now left. }
  simpl in Hin. repeat (destruct Hin as [Hin|Hin]; [discriminate Hin|]). exact Hin.
Qed.

Lemma forallb_countCalls (kind : Call -> bool) (projectId userId N : string) (j n : nat) :
  (forall name, kind (CallCountPlans projectId userId name) = true) ->
  List.forallb kind (countCalls projectId userId N j n) = true.
Proof.
  intros Hk. apply forallb_forall. intros c Hc.
  unfold countCalls in Hc. apply in_map_iff in Hc. destruct Hc as (t & <- & _). apply Hk.
Qed.

Lemma forallb_gateCalls (kind : Call -> bool) (E : Env.t) (auth : ServerAuth.t) :
  (forall userId, kind (CallGetUser userId) = true) ->
  List.forallb kind (gateCalls E auth) = true.
Proof.
  intros Hk. unfold gateCalls. destruct (negb _); simpl; [now rewrite Hk | reflexivity].
Qed.

Section CreationEffects.

Variable E : Env.t.

(** A name the loop returns is the name it was entered with or the
    requested name with a numeric suffix. *)
Lemma resolveName_shape (projectId userId N : string) (fuel : nat) :
  forall (name : string) (i : Z) (w w' : World.t) (out : string),
    resolveName E fuel projectId userId N name i w = Some (w', inr out) ->
    out = name \/ exists k, out = N ++ "." ++ fmt_Sprint k.
Proof.
  induction fuel as [|fuel IH]; intros name i w w' out H; [discriminate H|].
  rewrite resolveName_step in H.
  destruct (Env.dbErr E (CallCountPlans projectId userId name)); [discriminate H|].
  destruct (countPlans projectId userId name (World.plans w) =? 0).
  - injection H as _ <-. now left.
  - apply IH in H. destruct H as [-> | H]; [right; eauto | now right].
Qed.

(** The run of a non-draft creation whose first free candidate is [j]. *)
Lemma create_non_draft_run (r : Request.t) (auth : ServerAuth.t) (w : World.t)
    (N : string) (j fuel : nat) :
  createAllowed E r auth ->
  quotaPermits E auth ->
  Request.Body r = BodyCreatePlan (CreatePlanRequest.mk N) ->
  N <> "" -> N <> "draft" ->
  (forall c, Env.dbErr E c = None) ->
  (forall t, (t < j)%nat ->
     countPlans (vars_get (Request.Vars r) "projectId") (User.Id (ServerAuth.User auth))
                (candidate N t) (World.plans w) <> 0) ->
  countPlans (vars_get (Request.Vars r) "projectId") (User.Id (ServerAuth.User auth))
             (candidate N j) (World.plans w) = 0 ->
  Z.of_nat j + 2 <= int_max ->
  (j < fuel)%nat ->
  run (CreatePlanHandler E fuel r) w =
  Some (World.mk
          (World.plans w ++
           [Plan.mk (Env.newPlanId E (World.plans w)) (ServerAuth.OrgId auth)
                    (User.Id (ServerAuth.User auth)) (vars_get (Request.Vars r) "projectId")
                    (candidate N j)])
          (World.planDirs w)
          (World.calls w ++ gateCalls E auth ++
           countCalls (vars_get (Request.Vars r) "projectId")
                      (User.Id (ServerAuth.User auth)) N 0 (S j) ++
           [CallCreatePlan (ServerAuth.OrgId auth) (vars_get (Request.Vars r) "projectId")
                           (User.Id (ServerAuth.User auth)) (candidate N j)]),
        Response.mk 200
          (PayloadCreatePlan
             (CreatePlanResponse.mk (Env.newPlanId E (World.plans w)) (candidate N j)))).
Proof.
  intros Hallowed Hquota Hbody Hne Hnd Hok Htaken Hfree Hmax Hfuel.
  pose proof (resolveName_run E (vars_get (Request.Vars r) "projectId")
                (User.Id (ServerAuth.User auth)) N j 0 fuel
                (moreCalls w (gateCalls E auth)) Hfuel) as Hrun.
  cbn [Nat.add Z.of_nat Z.add candidate] in Hrun.
  specialize (Hrun Hmax (fun t Ht => Htaken t (proj2 Ht)) Hfree (fun t _ => Hok _)).
  unfold run. rewrite (CreatePlanHandler_allowed E r auth fuel w Hallowed).
  rewrite (trialQuotaGate_permits E auth w Hquota), Hbody. cbv zeta.
  cbn [CreatePlanRequest.Name].
  apply String.eqb_neq in Hne, Hnd. rewrite Hne. unfold resolvePlanName. rewrite Hnd.
  rewrite Hrun, Hok. cbn [World.plans World.planDirs World.calls moreCalls].
  now rewrite <- !app_assoc.
Qed.


End CreationEffects.

Ltac no_more_calls w :=
  exists w; eexists; exists (@nil Call), (@nil Call);
  split; [reflexivity | split; [now rewrite !app_nil_r | split; [reflexivity | now left]]].

Section CreationFrame.

Variable E : Env.t.

(** X10. Whatever the request and whatever the store answers, the
    creation handler returns, and issues only user lookups, existence checks
    and DeleteDraftPlans, followed by at most one CreatePlan, which is then
    its last operation. *)
Theorem create_issues_creation_calls_only (r : Request.t) (w : World.t) (fuel : nat) :
  Z.of_nat (List.length (World.plans w)) + 2 <= int_max ->
  (List.length (World.plans w) < fuel)%nat ->
  exists w' resp pre last,
    run (CreatePlanHandler E fuel r) w = Some (w', resp) /\
    World.calls w' = (World.calls w ++ pre ++ last)%list /\
    List.forallb (fun c => isCreationCall c && negb (isCreatePlan c)) pre = true /\
    (last = [] \/ exists orgId projectId userId name,
                    last = [CallCreatePlan orgId projectId userId name]).
Proof.
  intros Hmax Hfuel. unfold run.
  destruct (Env.authenticate E r) as [resp|auth] eqn:Ha.
  { unfold CreatePlanHandler, bind, lift. rewrite Ha. no_more_calls w. }
  destruct (ServerAuth.HasPermission auth PermissionCreatePlan) eqn:Hp.
  2:{ unfold CreatePlanHandler, bind, lift. rewrite Ha, Hp. cbn. no_more_calls w. }
  destruct (Env.authorizeProject E (vars_get (Request.Vars r) "projectId") auth)
    as [resp|[]] eqn:Hz.
  { unfold CreatePlanHandler, bind at 1, lift at 1. rewrite Ha, Hp. cbn [negb].
    unfold bind, lift. rewrite Hz. no_more_calls w. }
  rewrite (CreatePlanHandler_allowed E r auth fuel w (conj Ha (conj Hp Hz))).
  destruct (trialQuotaGate_reads E auth w) as (out & ->).
  assert (Hgate : List.forallb (fun c => isCreationCall c && negb (isCreatePlan c))
                               (gateCalls E auth) = true)
    by (apply forallb_gateCalls; reflexivity).
  assert (Hstop : forall resp : Response.t,
            exists w' resp' pre last,
              Some (moreCalls w (gateCalls E auth), resp) = Some (w', resp') /\
                        World.calls w' = (World.calls w ++ pre ++ last)%list /\
              List.forallb (fun c => isCreationCall c && negb (isCreatePlan c)) pre = true /\
              (last = [] \/ exists orgId projectId userId name,
                              last = [CallCreatePlan orgId projectId userId name])).
  { intros resp. do 2 eexists. exists (gateCalls E auth), [].
    split; [reflexivity|]. cbn [World.plans World.planDirs World.calls logCall setPlans moreCalls].
    rewrite app_nil_r. repeat split; [exact Hgate | now left]. }
  destruct out as [resp|[]]; [apply Hstop|].
  destruct (Request.Body r) as [| |requestBody]; [apply Hstop | apply Hstop |].
  cbv zeta. unfold resolvePlanName.
  set (name := if String.eqb (CreatePlanRequest.Name requestBody) "" then "draft"
               else CreatePlanRequest.Name requestBody).
  destruct (String.eqb_spec name "draft") as [->|Hnd].
  - unfold bind, db_DeleteDraftPlans, dbCall.
    assert (Hpre : List.forallb (fun c => isCreationCall c && negb (isCreatePlan c))
                     (gateCalls E auth ++
                      [CallDeleteDraftPlans (ServerAuth.OrgId auth)
                         (vars_get (Request.Vars r) "projectId")
                         (User.Id (ServerAuth.User auth))]) = true)
      by (rewrite forallb_app, Hgate; reflexivity).
    destruct (Env.dbErr E (CallDeleteDraftPlans _ _ _)).
    + do 2 eexists. eexists (gateCalls E auth ++ [_])%list, [].
      split; [reflexivity|]. cbn [World.plans World.planDirs World.calls logCall setPlans moreCalls].
      rewrite app_nil_r, <- app_assoc.
      repeat split; [exact Hpre | now left].
    + cbn [ret World.plans logCall setPlans moreCalls].
      destruct (Env.dbErr E (CallCreatePlan _ _ _ _));
        (do 2 eexists; eexists (gateCalls E auth ++ [_])%list, [_];
         split; [reflexivity|]; cbn [World.plans World.planDirs World.calls logCall setPlans moreCalls];
         rewrite <- !app_assoc;
         repeat split; [exact Hpre | right; do 4 eexists; reflexivity]).
  - destruct (first_free_candidate (vars_get (Request.Vars r) "projectId")
                (User.Id (ServerAuth.User auth)) name (World.plans w))
      as (m & Hm & Hfree & _).
    destruct (resolveName_total E (vars_get (Request.Vars r) "projectId")
                (User.Id (ServerAuth.User auth)) name m 0 fuel
                (moreCalls w (gateCalls E auth))) as (n & out & Hrun);
      [lia | cbn [Nat.add]; lia | exact Hfree |].
    cbn [Nat.add Z.of_nat Z.add candidate] in Hrun. rewrite Hrun.
    assert (Hpre : List.forallb (fun c => isCreationCall c && negb (isCreatePlan c))
                     (gateCalls E auth ++
                      countCalls (vars_get (Request.Vars r) "projectId")
                                 (User.Id (ServerAuth.User auth)) name 0 n) = true).
    { rewrite forallb_app, Hgate. apply forallb_countCalls. reflexivity. }
    destruct out as [resp|found].
    + do 2 eexists. eexists (gateCalls E auth ++ countCalls _ _ _ 0 n)%list, [].
      split; [reflexivity|]. cbn [World.plans World.planDirs World.calls logCall setPlans moreCalls].
      rewrite app_nil_r, <- app_assoc.
      repeat split; [exact Hpre | now left].
    + destruct (Env.dbErr E (CallCreatePlan _ _ _ _));
        (do 2 eexists; eexists (gateCalls E auth ++ countCalls _ _ _ 0 n)%list, [_];
         split; [reflexivity|]; cbn [World.plans World.planDirs World.calls logCall setPlans moreCalls];
         rewrite <- !app_assoc;
         repeat split; [exact Hpre | right; do 4 eexists; reflexivity]).
Qed.

(** X11. A request for a non-draft name [N] never removes or changes a
    stored plan, whatever happens: the plans afterwards are the plans before
    or those followed by one new plan, whose name begins with [N], is not
    ["draft"], and was borne by no plan of its project and owner; no
    deleting operation is issued. *)
Theorem create_non_draft_only_appends (r : Request.t) (w : World.t) (N : string)
    (fuel : nat) :
  Request.Body r = BodyCreatePlan (CreatePlanRequest.mk N) ->
  N <> "" -> N <> "draft" ->
  Z.of_nat (List.length (World.plans w)) + 2 <= int_max ->
  (List.length (World.plans w) < fuel)%nat ->
  exists w' resp,
    run (CreatePlanHandler E fuel r) w = Some (w', resp) /\
    issuesOnly (fun c => negb (isDeletion c)) w w' /\
    (World.plans w' = World.plans w \/
     exists plan,
       World.plans w' = (World.plans w ++ [plan])%list /\
       resp = Response.mk 200
                (PayloadCreatePlan (CreatePlanResponse.mk (Plan.Id plan) (Plan.Name plan))) /\
       String.prefix N (Plan.Name plan) = true /\
       Plan.Name plan <> "draft" /\
       Plan.ProjectId plan = vars_get (Request.Vars r) "projectId" /\
       countPlans (Plan.ProjectId plan) (Plan.OwnerId plan) (Plan.Name plan)
                  (World.plans w) = 0).
Proof.
  intros Hbody Hne Hnd Hmax Hfuel. unfold run.
  assert (Hsame : forall resp, exists w' resp',
            Some (w, resp) = Some (w', resp') /\
            issuesOnly (fun c => negb (isDeletion c)) w w' /\
            (World.plans w' = World.plans w \/
             exists plan,
               World.plans w' = (World.plans w ++ [plan])%list /\
               resp' = Response.mk 200
                 (PayloadCreatePlan (CreatePlanResponse.mk (Plan.Id plan) (Plan.Name plan))) /\
               String.prefix N (Plan.Name plan) = true /\
               Plan.Name plan <> "draft" /\
               Plan.ProjectId plan = vars_get (Request.Vars r) "projectId" /\
               countPlans (Plan.ProjectId plan) (Plan.OwnerId plan) (Plan.Name plan)
                          (World.plans w) = 0)).
  { intros resp. exists w, resp. split; [reflexivity|]. split; [|now left].
    exists []. now rewrite app_nil_r. }
  destruct (Env.authenticate E r) as [resp|auth] eqn:Ha.
  { unfold CreatePlanHandler, bind, lift. rewrite Ha. apply Hsame. }
  destruct (ServerAuth.HasPermission auth PermissionCreatePlan) eqn:Hp.
  2:{ unfold CreatePlanHandler, bind, lift. rewrite Ha, Hp. cbn. apply Hsame. }
  destruct (Env.authorizeProject E (vars_get (Request.Vars r) "projectId") auth)
    as [resp|[]] eqn:Hz.
  { unfold CreatePlanHandler, bind at 1, lift at 1. rewrite Ha, Hp. cbn [negb].
    unfold bind, lift. rewrite Hz. apply Hsame. }
  clear Hsame.
  rewrite (CreatePlanHandler_allowed E r auth fuel w (conj Ha (conj Hp Hz))).
  destruct (trialQuotaGate_reads E auth w) as (out & ->).
  assert (Hgate : List.forallb (fun c => negb (isDeletion c)) (gateCalls E auth) = true)
    by (apply forallb_gateCalls; reflexivity).
  destruct out as [resp|[]].
  { do 2 eexists. split; [reflexivity|]. split; [|now left].
    exists (gateCalls E auth). split; [reflexivity | exact Hgate]. }
  rewrite Hbody. cbv zeta. cbn [CreatePlanRequest.Name].
  pose proof Hne as Hne'. pose proof Hnd as Hnd'.
  apply String.eqb_neq in Hne', Hnd'. rewrite Hne'. unfold resolvePlanName. rewrite Hnd'.
  destruct (first_free_candidate (vars_get (Request.Vars r) "projectId")
              (User.Id (ServerAuth.User auth)) N (World.plans w))
    as (m & Hm & Hfree & _).
  destruct (resolveName_total E (vars_get (Request.Vars r) "projectId")
              (User.Id (ServerAuth.User auth)) N m 0 fuel
              (moreCalls w (gateCalls E auth))) as (n & out & Hrun);
    [lia | cbn [Nat.add]; lia | exact Hfree |].
  cbn [Nat.add Z.of_nat Z.add candidate] in Hrun. rewrite Hrun.
  assert (Hpre : List.forallb (fun c => negb (isDeletion c))
                   (gateCalls E auth ++
                    countCalls (vars_get (Request.Vars r) "projectId")
                               (User.Id (ServerAuth.User auth)) N 0 n) = true).
  { rewrite forallb_app, Hgate. apply forallb_countCalls. reflexivity. }
  destruct out as [resp|found].
  { do 2 eexists. split; [reflexivity|]. split; [|now left].
    eexists (gateCalls E auth ++ countCalls _ _ _ 0 n)%list.
    cbn [World.calls moreCalls]. rewrite <- app_assoc.
    split; [reflexivity | exact Hpre]. }
  pose proof (resolveName_sound E _ _ _ _ _ _ _ _ _ Hrun) as Hzero.
  pose proof (resolveName_shape E _ _ _ _ _ _ _ _ _ Hrun) as Hshape.
  cbn [World.plans moreCalls] in Hzero.
  destruct (Env.dbErr E (CallCreatePlan _ _ _ _)).
  - do 2 eexists. split; [reflexivity|]. split; [|now left].
    eexists ((gateCalls E auth ++ countCalls _ _ _ 0 n) ++ [_])%list. cbn [World.calls moreCalls logCall].
    rewrite <- !app_assoc. split; [reflexivity|].
    rewrite app_assoc, forallb_app, Hpre. reflexivity.
  - do 2 eexists. split; [reflexivity|]. split.
    + eexists ((gateCalls E auth ++ countCalls _ _ _ 0 n) ++ [_])%list. cbn [World.calls moreCalls].
      rewrite <- !app_assoc. split; [reflexivity|].
      rewrite app_assoc, forallb_app, Hpre. reflexivity.
    + right. eexists. cbn [World.plans moreCalls].
      split; [reflexivity|]. cbn [Plan.Id Plan.Name Plan.ProjectId Plan.OwnerId].
      split; [reflexivity|].
      split; [destruct Hshape as [-> | (k & ->)];
              [apply prefix_refl | apply prefix_append]|].
      split; [destruct Hshape as [-> | (k & ->)];
              [exact Hnd | apply suffixed_not_draft]|].
      split; [reflexivity | exact Hzero].
Qed.

End CreationFrame.

(** ** Creation composed with creation and with deletion *)

Lemma countPlans_single (projectId userId name : string) (p : Plan.t) :
  countPlans projectId userId name [p] = if hasName projectId userId name p then 1 else 0.
Proof.
  unfold countPlans. cbn [List.filter]. destruct (hasName projectId userId name p); reflexivity.
Qed.

Section CreationComposed.

Variable E : Env.t.

(** X12. The same non-draft request served twice, the access checks and
    the quota gate passing both times and no store operation failing,
    creates two plans with different names: after the first creation its
    name is taken (the existence check counts it once), so the second
    creation resolves to another name, and both plans are stored after the
    plans that were there.  [E] is the environment of the first request,
    [E2] that of the second. *)
Theorem create_same_name_twice (E2 : Env.t) (r : Request.t) (auth auth2 : ServerAuth.t)
    (w : World.t) (N : string) (fuel : nat) :
  createAllowed E r auth ->
  quotaPermits E auth ->
  (forall c, Env.dbErr E c = None) ->
  createAllowed E2 r auth2 ->
  quotaPermits E2 auth2 ->
  (forall c, Env.dbErr E2 c = None) ->
  User.Id (ServerAuth.User auth2) = User.Id (ServerAuth.User auth) ->
  Request.Body r = BodyCreatePlan (CreatePlanRequest.mk N) ->
  N <> "" -> N <> "draft" ->
  Z.of_nat (List.length (World.plans w)) + 3 <= int_max ->
  (S (List.length (World.plans w)) < fuel)%nat ->
  exists name1 name2 id1 id2 w1 w2,
    run (CreatePlanHandler E fuel r) w =
      Some (w1, Response.mk 200 (PayloadCreatePlan (CreatePlanResponse.mk id1 name1))) /\
    run (CreatePlanHandler E2 fuel r) w1 =
      Some (w2, Response.mk 200 (PayloadCreatePlan (CreatePlanResponse.mk id2 name2))) /\
    name1 <> name2 /\
    countPlans (vars_get (Request.Vars r) "projectId") (User.Id (ServerAuth.User auth))
               name1 (World.plans w1) = 1 /\
    World.plans w2 =
      (World.plans w ++
       [Plan.mk id1 (ServerAuth.OrgId auth) (User.Id (ServerAuth.User auth))
                (vars_get (Request.Vars r) "projectId") name1;
        Plan.mk id2 (ServerAuth.OrgId auth2) (User.Id (ServerAuth.User auth))
                (vars_get (Request.Vars r) "projectId") name2])%list.
Proof.
  intros Hallowed Hquota Hok Hallowed2 Hquota2 Hok2 Hsame Hbody Hne Hnd Hmax Hfuel.
  destruct (first_free_candidate (vars_get (Request.Vars r) "projectId")
              (User.Id (ServerAuth.User auth)) N (World.plans w))
    as (m1 & Hm1 & Hfree1 & Htaken1).
  pose proof (create_non_draft_run E r auth w N m1 fuel Hallowed Hquota Hbody Hne Hnd Hok
                Htaken1 Hfree1 ltac:(lia) ltac:(lia)) as Hrun1.
  set (p1 := Plan.mk (Env.newPlanId E (World.plans w)) (ServerAuth.OrgId auth)
                     (User.Id (ServerAuth.User auth))
                     (vars_get (Request.Vars r) "projectId") (candidate N m1)) in *.
  set (w1 := World.mk (World.plans w ++ [p1]) (World.planDirs w)
                      (World.calls w ++ gateCalls E auth ++
                       countCalls (vars_get (Request.Vars r) "projectId")
                                  (User.Id (ServerAuth.User auth)) N 0 (S m1) ++
                       [CallCreatePlan (ServerAuth.OrgId auth)
                          (vars_get (Request.Vars r) "projectId")
                          (User.Id (ServerAuth.User auth)) (candidate N m1)])) in *.
  destruct (first_free_candidate (vars_get (Request.Vars r) "projectId")
              (User.Id (ServerAuth.User auth)) N (World.plans w1))
    as (m2 & Hm2 & Hfree2 & Htaken2).
  assert (Hlen : List.length (World.plans w1) = S (List.length (World.plans w)))
    by (unfold w1; cbn [World.plans]; rewrite length_app; simpl; lia).
  pose proof (create_non_draft_run E2 r auth2 w1 N m2 fuel Hallowed2 Hquota2 Hbody Hne Hnd
                Hok2) as Hrun2.
  rewrite Hsame in Hrun2.
  specialize (Hrun2 Htaken2 Hfree2 ltac:(lia) ltac:(lia)).
  assert (Hone : countPlans (vars_get (Request.Vars r) "projectId")
                            (User.Id (ServerAuth.User auth)) (candidate N m1)
                            (World.plans w1) = 1).
  { unfold w1. cbn [World.plans]. rewrite countPlans_app, Hfree1, countPlans_single.
    replace (hasName (vars_get (Request.Vars r) "projectId")
                     (User.Id (ServerAuth.User auth)) (candidate N m1) p1) with true
      by (symmetry; apply hasName_spec; repeat split).
    reflexivity. }
  exists (candidate N m1), (candidate N m2), (Env.newPlanId E (World.plans w)),
    (Env.newPlanId E2 (World.plans w1)), w1. eexists.
  split; [exact Hrun1|]. split; [exact Hrun2|].
  split; [|split; [exact Hone|]].
  - intros Heq. rewrite Heq, Hfree2 in Hone. discriminate Hone.
  - cbn [World.plans]. unfold w1. cbn [World.plans]. now rewrite <- app_assoc.
Qed.

(** X13. Creating a plan and then deleting the plan of the returned id
    gives back the plans there were, when the new id is the id of no stored
    plan, the deletion is asked by the same user, its authorizer finds the
    plan just created, and no store operation fails.  [E] is the environment
    of the creation, [E2] that of the deletion. *)
Theorem create_then_delete_restores_plans (E2 : Env.t) (r r2 : Request.t)
    (auth auth2 : ServerAuth.t) (w : World.t) (N : string) (fuel : nat) :
  createAllowed E r auth ->
  quotaPermits E auth ->
  Request.Body r = BodyCreatePlan (CreatePlanRequest.mk N) ->
  N <> "" -> N <> "draft" ->
  (forall c, Env.dbErr E c = None) ->
  Z.of_nat (List.length (World.plans w)) + 2 <= int_max ->
  (List.length (World.plans w) < fuel)%nat ->
  (forall p, In p (World.plans w) -> Plan.Id p <> Env.newPlanId E (World.plans w)) ->
  Env.authenticate E2 r2 = inr auth2 ->
  User.Id (ServerAuth.User auth2) = User.Id (ServerAuth.User auth) ->
  vars_get (Request.Vars r2) "planId" = Env.newPlanId E (World.plans w) ->
  (forall name,
     Env.authorizePlanDelete E2
       (World.plans w ++
        [Plan.mk (Env.newPlanId E (World.plans w)) (ServerAuth.OrgId auth)
                 (User.Id (ServerAuth.User auth)) (vars_get (Request.Vars r) "projectId")
                 name])
       (Env.newPlanId E (World.plans w)) auth2 =
     inr (Plan.mk (Env.newPlanId E (World.plans w)) (ServerAuth.OrgId auth)
                  (User.Id (ServerAuth.User auth)) (vars_get (Request.Vars r) "projectId")
                  name)) ->
  (forall c, Env.dbErr E2 c = None) ->
  exists name w1 w2,
    run (CreatePlanHandler E fuel r) w =
      Some (w1, Response.mk 200
                  (PayloadCreatePlan
                     (CreatePlanResponse.mk (Env.newPlanId E (World.plans w)) name))) /\
    World.plans w1 =
      (World.plans w ++
       [Plan.mk (Env.newPlanId E (World.plans w)) (ServerAuth.OrgId auth)
                (User.Id (ServerAuth.User auth)) (vars_get (Request.Vars r) "projectId")
                name])%list /\
    run (DeletePlanHandler E2 r2) w1 = Some (w2, Response.mk 200 PayloadNone) /\
    World.plans w2 = World.plans w.
Proof.
  intros Hallowed Hquota Hbody Hne Hnd Hok Hmax Hfuel Hfresh Ha2 Hsame Hid Hauth2 Hok2.
  destruct (first_free_candidate (vars_get (Request.Vars r) "projectId")
              (User.Id (ServerAuth.User auth)) N (World.plans w))
    as (m & Hm & Hfree & Htaken).
  pose proof (create_non_draft_run E r auth w N m fuel Hallowed Hquota Hbody Hne Hnd Hok
                Htaken Hfree ltac:(lia) ltac:(lia)) as Hrun.
  set (newId := Env.newPlanId E (World.plans w)) in *.
  set (p := Plan.mk newId (ServerAuth.OrgId auth) (User.Id (ServerAuth.User auth))
                    (vars_get (Request.Vars r) "projectId") (candidate N m)) in *.
  match type of Hrun with _ = Some (?x, _) => set (w1 := x) in * end.
  exists (candidate N m), w1. eexists. split; [exact Hrun|]. split; [reflexivity|].
  unfold run.
  rewrite (DeletePlanHandler_owner E2 r2 auth2 p w1 Ha2);
    [| rewrite Hid; apply Hauth2 | symmetry; exact Hsame | apply Hok2 | apply Hok2].
  cbv zeta. rewrite Hid. unfold w1. cbn [World.plans World.planDirs World.calls].
  rewrite !filter_app.
  rewrite (filter_none (fun q => String.eqb (Plan.Id q) newId) (World.plans w))
    by (intros q Hq; apply String.eqb_neq; auto).
  rewrite (filter_all (fun q => negb (String.eqb (Plan.Id q) newId)) (World.plans w))
    by (intros q Hq; apply negb_true_iff, String.eqb_neq; auto).
  cbn [List.filter Plan.Id p]. unfold p. cbn [Plan.Id].
  rewrite String.eqb_refl. cbn [negb app List.length Z.of_nat Z.eqb Pos.of_succ_nat].
  unfold bind, db_DeletePlanDir, dbCall. rewrite Hok2. cbn [ret].
  split; [reflexivity|].
  cbn [World.plans logCall setPlanDirs]. now rewrite app_nil_r.
Qed.

End CreationComposed.

(** ** Single deletion and the reading handlers *)

Section DeletionEffects.

Variable E : Env.t.

(** X14. Single deletion, store failures: when the DELETE statement
    fails, the handler answers with a server error and no row is removed;
    when the statement succeeded and reading the number of affected rows
    fails, it answers with a server error although the rows of that id are
    already removed, and the plan directory is not deleted. *)
Theorem delete_store_failures (r : Request.t) (auth : ServerAuth.t) (plan : Plan.t)
    (w : World.t) (err : error) :
  Env.authenticate E r = inr auth ->
  Env.authorizePlanDelete E (World.plans w) (vars_get (Request.Vars r) "planId") auth
    = inr plan ->
  Plan.OwnerId plan = User.Id (ServerAuth.User auth) ->
  (Env.dbErr E (CallExecDeletePlan (vars_get (Request.Vars r) "planId")) = Some err ->
   run (DeletePlanHandler E r) w =
   Some (logCall (CallExecDeletePlan (vars_get (Request.Vars r) "planId")) w,
         Response.mk 500 (PayloadText ("Error deleting plan: " ++ err)))) /\
  (Env.dbErr E (CallExecDeletePlan (vars_get (Request.Vars r) "planId")) = None ->
   Env.dbErr E CallRowsAffected = Some err ->
   run (DeletePlanHandler E r) w =
   Some (World.mk
           (List.filter
              (fun p => negb (String.eqb (Plan.Id p) (vars_get (Request.Vars r) "planId")))
              (World.plans w))
           (World.planDirs w)
           (World.calls w ++
            [CallExecDeletePlan (vars_get (Request.Vars r) "planId"); CallRowsAffected]),
         Response.mk 500 (PayloadText ("Error getting rows affected: " ++ err)))).
Proof.
  intros Ha Hp Ho.
  assert (Hstart : DeletePlanHandler E r w =
            (res <- db_ExecDeletePlan E (vars_get (Request.Vars r) "planId") ;;
             match res with
             | inl err =>
                 http_Error ("Error deleting plan: " ++ err) http.StatusInternalServerError
             | inr res =>
                 rows <- res_RowsAffected E res ;;
                 match rows with
                 | inl err =>
                     http_Error ("Error getting rows affected: " ++ err)
                                http.StatusInternalServerError
                 | inr rowsAffected =>
                     if rowsAffected =? 0 then http_Error "Not found" http.StatusNotFound
                     else
                       res <- db_DeletePlanDir E (ServerAuth.OrgId auth)
                                (vars_get (Request.Vars r) "planId") ;;
                       match res with
                       | inl err =>
                           http_Error ("Error deleting plan dir: " ++ err)
                                      http.StatusInternalServerError
                       | inr _ => ret (Response.mk http.StatusOK PayloadNone)
                       end
                 end
             end) w).
  { unfold DeletePlanHandler, bind at 1, lift at 1. rewrite Ha.
    unfold bind at 1, lift at 1. rewrite Hp, Ho, String.eqb_refl. reflexivity. }
  unfold run. rewrite Hstart. split.
  - intros He. unfold bind, db_ExecDeletePlan, dbCall. rewrite He. reflexivity.
  - intros He Hr. unfold bind at 1, db_ExecDeletePlan, dbCall. rewrite He.
    unfold bind, res_RowsAffected, dbCall. rewrite Hr.
    unfold http_Error, logCall, setPlans. cbn [World.plans World.planDirs World.calls].
    now rewrite <- app_assoc.
Qed.

(** X15. Deleting the same plan twice: when the first deletion succeeds
    and the request is repeated (the authorizer still naming the plan), the
    second answer is NotFound and the second run removes nothing. *)
Theorem delete_twice_not_found (r : Request.t) (auth : ServerAuth.t) (plan : Plan.t)
    (w : World.t) :
  Env.authenticate E r = inr auth ->
  (forall ps, Env.authorizePlanDelete E ps (vars_get (Request.Vars r) "planId") auth
              = inr plan) ->
  Plan.OwnerId plan = User.Id (ServerAuth.User auth) ->
  (forall c, Env.dbErr E c = None) ->
  (exists p, In p (World.plans w) /\ Plan.Id p = vars_get (Request.Vars r) "planId") ->
  exists w1 w2,
    run (DeletePlanHandler E r) w = Some (w1, Response.mk 200 PayloadNone) /\
    run (DeletePlanHandler E r) w1 = Some (w2, Response.mk 404 (PayloadText "Not found")) /\
    World.plans w2 = World.plans w1 /\
    World.planDirs w2 = World.planDirs w1 /\
    (forall p, In p (World.plans w1) <->
               In p (World.plans w) /\ Plan.Id p <> vars_get (Request.Vars r) "planId").
Proof.
  intros Ha Hp Ho Hok (p0 & Hin0 & Hid0).
  set (planId := vars_get (Request.Vars r) "planId") in *.
  set (kept := List.filter (fun p => negb (String.eqb (Plan.Id p) planId)) (World.plans w)).
  assert (Hkept : forall p, In p kept <-> In p (World.plans w) /\ Plan.Id p <> planId).
  { intros p. unfold kept. rewrite filter_In, negb_true_iff, String.eqb_neq. tauto. }
  assert (Hrun1 : exists w1, run (DeletePlanHandler E r) w =
                               Some (w1, Response.mk 200 PayloadNone) /\
                             World.plans w1 = kept).
  { unfold run. rewrite (DeletePlanHandler_owner E r auth plan w Ha (Hp _) Ho (Hok _) (Hok _)).
    cbv zeta. fold planId. fold kept.
    assert (Hgone : In p0 (List.filter (fun p => String.eqb (Plan.Id p) planId)
                                       (World.plans w)))
      by (apply filter_In; split; [assumption | now apply String.eqb_eq]).
    destruct (List.filter (fun p => String.eqb (Plan.Id p) planId) (World.plans w))
      as [|g gone]; [contradiction|].
    cbn [List.length]. rewrite Nat2Z.inj_succ.
    destruct (Z.eqb_spec (Z.succ (Z.of_nat (List.length gone))) 0) as [Hz|_]; [lia|].
    unfold bind, db_DeletePlanDir, dbCall. rewrite Hok.
    eexists. split; reflexivity. }
  destruct Hrun1 as (w1 & Hrun1 & Hplans1).
  exists w1. eexists. split; [exact Hrun1|].
  unfold run. rewrite (DeletePlanHandler_owner E r auth plan w1 Ha (Hp _) Ho (Hok _) (Hok _)).
  cbv zeta. fold planId. rewrite Hplans1.
  rewrite (filter_none (fun p => String.eqb (Plan.Id p) planId) kept)
    by (intros p Hin; apply String.eqb_neq; now apply Hkept in Hin).
  rewrite (filter_all (fun p => negb (String.eqb (Plan.Id p) planId)) kept)
    by (intros p Hin; apply negb_true_iff, String.eqb_neq; now apply Hkept in Hin).
  cbn [List.length Z.of_nat Z.eqb]. unfold http_Error.
  split; [reflexivity|]. cbn [World.plans World.planDirs].
  split; [reflexivity|]. split; [reflexivity|]. exact Hkept.
Qed.

(** X16. Whatever the request and whatever the store answers, single
    deletion returns and issues a prefix of: the DELETE statement, the read
    of the affected rows, DeletePlanDir.  It never deletes a plan directory
    unless its DELETE statement removed at least one row. *)
Theorem delete_directory_only_after_row (r : Request.t) (w : World.t) :
  exists w' resp cs,
    run (DeletePlanHandler E r) w = Some (w', resp) /\
    World.calls w' = (World.calls w ++ cs)%list /\
    ((cs = [] /\ World.plans w' = World.plans w) \/
     (cs = [CallExecDeletePlan (vars_get (Request.Vars r) "planId")] /\
      World.plans w' = World.plans w) \/
     (cs = [CallExecDeletePlan (vars_get (Request.Vars r) "planId"); CallRowsAffected] /\
      World.planDirs w' = World.planDirs w) \/
     (exists orgId,
        cs = [CallExecDeletePlan (vars_get (Request.Vars r) "planId"); CallRowsAffected;
              CallDeletePlanDir orgId (vars_get (Request.Vars r) "planId")] /\
        (List.length (World.plans w') < List.length (World.plans w))%nat)).
Proof.
  unfold run, DeletePlanHandler, bind at 1, lift at 1.
  destruct (Env.authenticate E r) as [resp|auth].
  { exists w, resp, []. rewrite app_nil_r. repeat split. left. now split. }
  unfold bind at 1, lift at 1.
  destruct (Env.authorizePlanDelete E _ _ auth) as [resp|plan].
  { exists w, resp, []. rewrite app_nil_r. repeat split. left. now split. }
  destruct (negb _).
  { do 2 eexists. exists []. rewrite app_nil_r. repeat split. left. now split. }
  set (planId := vars_get (Request.Vars r) "planId").
  unfold bind at 1, db_ExecDeletePlan, dbCall.
  destruct (Env.dbErr E (CallExecDeletePlan planId)).
  { do 2 eexists. exists [CallExecDeletePlan planId].
    split; [reflexivity|]. split; [reflexivity|]. right. left. now split. }
  unfold bind at 1, res_RowsAffected, dbCall.
  destruct (Env.dbErr E CallRowsAffected).
  { do 2 eexists. exists [CallExecDeletePlan planId; CallRowsAffected].
    split; [reflexivity|].
    cbn [World.plans World.planDirs World.calls logCall setPlans].
    split; [now rewrite <- app_assoc|]. right. right. left. now split. }
  cbn [World.plans logCall setPlans].
  destruct (Z.eqb_spec (Z.of_nat (List.length
              (List.filter (fun p => String.eqb (Plan.Id p) planId) (World.plans w)))) 0)
    as [Hz|Hz].
  { do 2 eexists. exists [CallExecDeletePlan planId; CallRowsAffected].
    split; [reflexivity|].
    cbn [World.plans World.planDirs World.calls logCall setPlans].
    split; [now rewrite <- app_assoc|]. right. right. left. now split. }
  assert (Hlen : (List.length (List.filter (fun p => negb (String.eqb (Plan.Id p) planId))
                                           (World.plans w))
                  < List.length (World.plans w))%nat).
  { pose proof (filter_length (fun p => String.eqb (Plan.Id p) planId) (World.plans w)). lia. }
  unfold bind, db_DeletePlanDir, dbCall.
  destruct (Env.dbErr E (CallDeletePlanDir _ planId));
    (do 2 eexists;
     exists [CallExecDeletePlan planId; CallRowsAffected;
             CallDeletePlanDir (ServerAuth.OrgId auth) planId];
     split; [reflexivity|];
     cbn [World.plans World.planDirs World.calls logCall setPlans setPlanDirs];
     split; [now rewrite <- !app_assoc|];
     right; right; right; exists (ServerAuth.OrgId auth); split; [reflexivity | exact Hlen]).
Qed.

(** X17. The reading handlers change nothing: GetPlanHandler and
    ListPlansRunningHandler issue no store operation at all, whatever the
    request; the two listings leave plans and directories as they are and
    issue at most the one ListOwnedPlans query.  GetPlanHandler answers
    with exactly the plan the authorizer returned. *)
Theorem reading_handlers_change_nothing (r : Request.t) (w : World.t) :
  (exists resp, run (GetPlanHandler E r) w = Some (w, resp)) /\
  (exists resp, run (ListPlansRunningHandler E r) w = Some (w, resp)) /\
  (exists w' resp,
     run (ListPlansHandler E r) w = Some (w', resp) /\
     World.plans w' = World.plans w /\ World.planDirs w' = World.planDirs w /\
     (World.calls w' = World.calls w \/
      exists userId,
        World.calls w' =
        (World.calls w ++
         [CallListOwnedPlans (vars_get (Request.Vars r) "projectId") userId false ""])%list)) /\
  (exists w' resp,
     run (ListArchivedPlansHandler E r) w = Some (w', resp) /\
     World.plans w' = World.plans w /\ World.planDirs w' = World.planDirs w /\
     (World.calls w' = World.calls w \/
      World.calls w' =
      (World.calls w ++
       [CallListOwnedPlans (vars_get (Request.Vars r) "projectId") "" true ""])%list)) /\
  (forall auth plan,
     Env.authenticate E r = inr auth ->
     Env.authorizePlan E (World.plans w) (vars_get (Request.Vars r) "planId") auth
       = inr plan ->
     run (GetPlanHandler E r) w = Some (w, Response.mk 200 (PayloadPlan plan))).
Proof.
  split; [|split; [|split; [|split]]].
  - unfold run, GetPlanHandler, bind at 1, lift at 1.
    destruct (Env.authenticate E r) as [resp|auth]; [eexists; reflexivity|].
    unfold bind, lift.
    destruct (Env.authorizePlan E _ _ auth) as [resp|plan]; eexists; reflexivity.
  - unfold run, ListPlansRunningHandler, bind at 1, lift at 1.
    destruct (Env.authenticate E r) as [resp|auth]; [eexists; reflexivity|].
    unfold bind, lift.
    destruct (Env.authorizeProject E _ auth) as [resp|[]]; eexists; reflexivity.
  - unfold run, ListPlansHandler, bind at 1, lift at 1.
    destruct (Env.authenticate E r) as [resp|auth];
      [do 2 eexists; repeat split; now left|].
    unfold bind at 1, lift at 1.
    destruct (Env.authorizeProject E _ auth) as [resp|[]];
      [do 2 eexists; repeat split; now left|].
    unfold bind, db_ListOwnedPlans.
    destruct (Env.ListOwnedPlans E _ _ _ _ _);
      (do 2 eexists; repeat split; right; eexists; reflexivity).
  - unfold run, ListArchivedPlansHandler, bind at 1, lift at 1.
    destruct (Env.authenticate E r) as [resp|auth];
      [do 2 eexists; repeat split; now left|].
    unfold bind at 1, lift at 1.
    destruct (Env.authorizeProject E _ auth) as [resp|[]];
      [do 2 eexists; repeat split; now left|].
    unfold bind, db_ListOwnedPlans.
    destruct (Env.ListOwnedPlans E _ _ _ _ _);
      (do 2 eexists; repeat split; right; reflexivity).
  - intros auth plan Ha Hp.
    unfold run, GetPlanHandler, bind, lift. rewrite Ha, Hp. reflexivity.
Qed.

End DeletionEffects.

Section BulkDeletion.

Variable E : Env.t.

(** X18. Bulk deletion is scoped by the caller: for an authenticated
    request on an authorized project its one store operation is
    DeleteOwnerPlans with the caller's organization, the project of the
    request and the caller's own user id; it answers 200 with an empty body
    when the operation succeeds and a server error carrying the store's
    message when it fails. *)
Theorem delete_all_is_scoped_to_caller (r : Request.t) (auth : ServerAuth.t)
    (w : World.t) :
  Env.authenticate E r = inr auth ->
  Env.authorizeProject E (vars_get (Request.Vars r) "projectId") auth = inr tt ->
  exists w' resp,
    run (DeleteAllPlansHandler E r) w = Some (w', resp) /\
    World.calls w' =
      (World.calls w ++
       [CallDeleteOwnerPlans (ServerAuth.OrgId auth) (vars_get (Request.Vars r) "projectId")
                             (User.Id (ServerAuth.User auth))])%list /\
    resp =
      match Env.dbErr E (CallDeleteOwnerPlans (ServerAuth.OrgId auth)
                           (vars_get (Request.Vars r) "projectId")
                           (User.Id (ServerAuth.User auth))) with
      | Some err => Response.mk 500 (PayloadText ("Error deleting plans: " ++ err))
      | None => Response.mk 200 PayloadNone
      end.
Proof.
  intros Ha Hz. unfold run, DeleteAllPlansHandler, bind at 1, lift at 1. rewrite Ha.
  unfold bind at 1, lift at 1. rewrite Hz.
  unfold bind, db_DeleteOwnerPlans, dbCall.
  destruct (Env.dbErr E (CallDeleteOwnerPlans _ _ _));
    (do 2 eexists; split; [reflexivity|]; split; reflexivity).
Qed.

End BulkDeletion.

(** * The further properties on concrete deployments *)

Lemma authentication_refusal_ends_every_handler_witness :
  run (CreatePlanHandler
         (site "1" (inl unauthorized) (inr tt) (inr plan1) (inr (alice true 12)) healthy) 0
         (request "web" "plan-1" (BodyCreatePlan (CreatePlanRequest.mk "api")))) store3 =
    Some (store3, unauthorized) /\
  run (DeletePlanHandler
         (site "1" (inl unauthorized) (inr tt) (inr plan1) (inr (alice true 12)) healthy)
         (request "web" "plan-1" (BodyCreatePlan (CreatePlanRequest.mk "api")))) store3 =
    Some (store3, unauthorized).
Proof.
  destruct (authentication_refusal_ends_every_handler
              (site "1" (inl unauthorized) (inr tt) (inr plan1) (inr (alice true 12)) healthy)
              (request "web" "plan-1" (BodyCreatePlan (CreatePlanRequest.mk "api")))
              store3 unauthorized 0 eq_refl)
    as (Hc & _ & Hd & _).
  split; assumption.
Defined.

Lemma create_without_permission_is_forbidden_witness :
  run (CreatePlanHandler
         (site "" (inr readerAuth) (inl noProject) (inr plan1) (inr (alice false 0)) healthy) 0
         (request "web" "" BodyMalformed)) store3 =
  Some (store3,
        Response.mk 403 (PayloadText "User does not have permission to create a plan")).
Proof.
  apply (create_without_permission_is_forbidden
           (site "" (inr readerAuth) (inl noProject) (inr plan1) (inr (alice false 0)) healthy)
           (request "web" "" BodyMalformed) readerAuth store3 0 eq_refl eq_refl).
Defined.

Lemma project_refusal_ends_project_handlers_witness :
  run (ListPlansHandler
         (site "" (inr (aliceAuth false 0)) (inl noProject) (inr plan1)
               (inr (alice false 0)) healthy)
         (request "nowhere" "" BodyMalformed)) store3 =
  Some (store3, noProject).
Proof.
  apply (project_refusal_ends_project_handlers
           (site "" (inr (aliceAuth false 0)) (inl noProject) (inr plan1)
                 (inr (alice false 0)) healthy)
           (request "nowhere" "" BodyMalformed) (aliceAuth false 0) store3 noProject 0
           eq_refl eq_refl).
Defined.

Lemma create_body_errors_witness :
  run (CreatePlanHandler (deployment "" false 0 plan1 healthy) 0
         (request "web" "" BodyMalformed)) store3 =
  Some (store3, Response.mk 400 (PayloadText "Error parsing request body")).
Proof.
  apply (proj2 (create_body_errors (deployment "" false 0 plan1 healthy)
                  (request "web" "" BodyMalformed) (aliceAuth false 0) store3 0
                  (conj eq_refl (conj eq_refl eq_refl)) (or_introl eq_refl))).
  reflexivity.
Defined.

Lemma create_user_lookup_failure_witness :
  run (CreatePlanHandler
         (site "1" (inr (aliceAuth true 0)) (inr tt) (inr plan1)
               (inl "connection refused") healthy) 0
         (request "web" "" (BodyCreatePlan (CreatePlanRequest.mk "api")))) store3 =
  Some (logCall (CallGetUser "alice") store3,
        Response.mk 500 (PayloadText "Error getting user: connection refused")).
Proof.
  apply (create_user_lookup_failure
           (site "1" (inr (aliceAuth true 0)) (inr tt) (inr plan1)
                 (inl "connection refused") healthy)
           (request "web" "" (BodyCreatePlan (CreatePlanRequest.mk "api")))
           (aliceAuth true 0) store3 0 "connection refused").
  - repeat split; reflexivity.
  - discriminate.
  - reflexivity.
Defined.

Lemma create_existence_check_failure_witness :
  run (CreatePlanHandler
         (deployment "" false 0 plan1 (failingOn (isCountOf "api.2") "timeout")) 2
         (request "web" "" (BodyCreatePlan (CreatePlanRequest.mk "api")))) store3 =
  Some (World.mk (World.plans store3) (World.planDirs store3)
                 [CallCountPlans "web" "alice" "api"; CallCountPlans "web" "alice" "api.2"],
        Response.mk 500 (PayloadText "Error checking if plan exists: timeout")).
Proof.
  apply (create_existence_check_failure
           (deployment "" false 0 plan1 (failingOn (isCountOf "api.2") "timeout"))
           (request "web" "" (BodyCreatePlan (CreatePlanRequest.mk "api")))
           (aliceAuth false 0) store3 "api" 1 2 "timeout").
  - repeat split; reflexivity.
  - left. reflexivity.
  - reflexivity.
  - discriminate.
  - discriminate.
  - intros t Ht. destruct t as [|t]; [|lia].
    split; [vm_compute; discriminate | reflexivity].
  - reflexivity.
  - vm_compute. discriminate.
  - lia.
Defined.

Lemma create_draft_deletion_failure_witness :
  run (CreatePlanHandler
         (deployment "" false 0 plan1 (failingOn isDeleteDraftPlans "locked")) 0
         (request "web" "" (BodyCreatePlan (CreatePlanRequest.mk "")))) store3 =
  Some (World.mk (World.plans store3) (World.planDirs store3)
                 [CallDeleteDraftPlans "acme" "web" "alice"],
        Response.mk 500 (PayloadText "Error deleting draft plans: locked")).
Proof.
  apply (create_draft_deletion_failure
           (deployment "" false 0 plan1 (failingOn isDeleteDraftPlans "locked"))
           (request "web" "" (BodyCreatePlan (CreatePlanRequest.mk "")))
           (aliceAuth false 0) store3 "" 0 "locked").
  - repeat split; reflexivity.
  - left. reflexivity.
  - reflexivity.
  - left. reflexivity.
  - reflexivity.
Defined.

Lemma create_draft_failure_loses_drafts_witness :
  exists w',
    run (CreatePlanHandler
           (deployment "" false 0 plan1 (failingOn isCreatePlan "disk full")) 0
           (request "web" "" (BodyCreatePlan (CreatePlanRequest.mk "draft")))) store3 =
      Some (w', Response.mk 500 (PayloadText "Error creating plan: disk full")) /\
    World.plans w' = [plan1; plan2].
Proof.
  destruct (create_draft_failure_loses_drafts
              (deployment "" false 0 plan1 (failingOn isCreatePlan "disk full"))
              (request "web" "" (BodyCreatePlan (CreatePlanRequest.mk "draft")))
              (aliceAuth false 0) store3 "draft" 0 "disk full")
    as (w' & Hrun & Hplans & _).
  - repeat split; reflexivity.
  - left. reflexivity.
  - reflexivity.
  - right. reflexivity.
  - reflexivity.
  - reflexivity.
  - exists w'. split; [exact Hrun | rewrite Hplans; reflexivity].
Defined.


Lemma create_issues_creation_calls_only_witness :
  exists w' resp pre last,
    run (CreatePlanHandler (deployment "1" true 3 plan1 healthy) 4
           (request "web" "" (BodyCreatePlan (CreatePlanRequest.mk "api")))) store3 =
      Some (w', resp) /\
    World.calls w' = (World.calls store3 ++ pre ++ last)%list /\
    List.forallb (fun c => isCreationCall c && negb (isCreatePlan c)) pre = true /\
    (last = [] \/ exists orgId projectId userId name,
                    last = [CallCreatePlan orgId projectId userId name]).
Proof.
  apply (create_issues_creation_calls_only (deployment "1" true 3 plan1 healthy)
           (request "web" "" (BodyCreatePlan (CreatePlanRequest.mk "api"))) store3 4).
  - vm_compute. discriminate.
  - simpl. lia.
Defined.

Lemma create_non_draft_only_appends_witness :
  exists w' resp,
    run (CreatePlanHandler (deployment "" false 0 plan1 healthy) 4
           (request "web" "" (BodyCreatePlan (CreatePlanRequest.mk "api")))) store3 =
      Some (w', resp) /\
    issuesOnly (fun c => negb (isDeletion c)) store3 w'.
Proof.
  destruct (create_non_draft_only_appends (deployment "" false 0 plan1 healthy)
              (request "web" "" (BodyCreatePlan (CreatePlanRequest.mk "api")))
              store3 "api" 4)
    as (w' & resp & Hrun & Hcalls & _).
  - reflexivity.
  - discriminate.
  - discriminate.
  - vm_compute. discriminate.
  - simpl. lia.
  - exists w', resp. split; assumption.
Defined.

Lemma create_same_name_twice_witness :
  exists name1 name2 id1 id2 w1 w2,
    run (CreatePlanHandler (deployment "1" true 3 plan1 healthy) 5
           (request "web" "" (BodyCreatePlan (CreatePlanRequest.mk "api")))) store3 =
      Some (w1, Response.mk 200 (PayloadCreatePlan (CreatePlanResponse.mk id1 name1))) /\
    run (CreatePlanHandler (deployment "1" true 4 plan1 healthy) 5
           (request "web" "" (BodyCreatePlan (CreatePlanRequest.mk "api")))) w1 =
      Some (w2, Response.mk 200 (PayloadCreatePlan (CreatePlanResponse.mk id2 name2))) /\
    name1 <> name2.
Proof.
  destruct (create_same_name_twice (deployment "1" true 3 plan1 healthy)
              (deployment "1" true 4 plan1 healthy)
              (request "web" "" (BodyCreatePlan (CreatePlanRequest.mk "api")))
              (aliceAuth true 3) (aliceAuth true 4) store3 "api" 5)
    as (name1 & name2 & id1 & id2 & w1 & w2 & H1 & H2 & Hne & _).
  - repeat split; reflexivity.
  - right. exists (alice true 3). split; [reflexivity | right; reflexivity].
  - reflexivity.
  - repeat split; reflexivity.
  - right. exists (alice true 4). split; [reflexivity | right; reflexivity].
  - reflexivity.
  - reflexivity.
  - reflexivity.
  - discriminate.
  - discriminate.
  - vm_compute. discriminate.
  - simpl. lia.
  - exists name1, name2, id1, id2, w1, w2. repeat split; assumption.
Defined.

Lemma create_then_delete_restores_plans_witness :
  exists name w1 w2,
    run (CreatePlanHandler lookupDeployment 4
           (request "web" "" (BodyCreatePlan (CreatePlanRequest.mk "notes")))) store3 =
      Some (w1, Response.mk 200 (PayloadCreatePlan (CreatePlanResponse.mk "plan-4" name))) /\
    World.plans w1 =
      (World.plans store3 ++ [Plan.mk "plan-4" "acme" "alice" "web" name])%list /\
    run (DeletePlanHandler lookupDeployment (request "web" "plan-4" BodyMalformed)) w1 =
      Some (w2, Response.mk 200 PayloadNone) /\
    World.plans w2 = World.plans store3.
Proof.
  apply (create_then_delete_restores_plans lookupDeployment lookupDeployment
           (request "web" "" (BodyCreatePlan (CreatePlanRequest.mk "notes")))
           (request "web" "plan-4" BodyMalformed)
           (aliceAuth false 0) (aliceAuth false 0) store3 "notes" 4).
  - repeat split; reflexivity.
  - left. reflexivity.
  - reflexivity.
  - discriminate.
  - discriminate.
  - reflexivity.
  - vm_compute. discriminate.
  - simpl. lia.
  - intros p [<-|[<-|[<-|[]]]]; discriminate.
  - reflexivity.
  - reflexivity.
  - reflexivity.
  - intros name. reflexivity.
  - reflexivity.
Defined.

Lemma delete_store_failures_witness :
  run (DeletePlanHandler (deployment "" false 0 plan1 (failingOn isRowsAffected "driver"))
         (request "web" "plan-1" BodyMalformed)) store3 =
  Some (World.mk [plan2; plan3] (World.planDirs store3)
                 [CallExecDeletePlan "plan-1"; CallRowsAffected],
        Response.mk 500 (PayloadText "Error getting rows affected: driver")).
Proof.
  apply (proj2 (delete_store_failures
                  (deployment "" false 0 plan1 (failingOn isRowsAffected "driver"))
                  (request "web" "plan-1" BodyMalformed) (aliceAuth false 0) plan1 store3
                  "driver" eq_refl eq_refl eq_refl)); reflexivity.
Defined.

Lemma delete_twice_not_found_witness :
  exists w1 w2,
    run (DeletePlanHandler (deployment "" false 0 plan1 healthy)
           (request "web" "plan-1" BodyMalformed)) store3 =
      Some (w1, Response.mk 200 PayloadNone) /\
    run (DeletePlanHandler (deployment "" false 0 plan1 healthy)
           (request "web" "plan-1" BodyMalformed)) w1 =
      Some (w2, Response.mk 404 (PayloadText "Not found")) /\
    World.plans w2 = World.plans w1.
Proof.
  destruct (delete_twice_not_found (deployment "" false 0 plan1 healthy)
              (request "web" "plan-1" BodyMalformed) (aliceAuth false 0) plan1 store3)
    as (w1 & w2 & H1 & H2 & Hp & _).
  - reflexivity.
  - reflexivity.
  - reflexivity.
  - reflexivity.
  - exists plan1. split; [left; reflexivity | reflexivity].
  - exists w1, w2. repeat split; assumption.
Defined.

Lemma delete_all_is_scoped_to_caller_witness :
  exists w' resp,
    run (DeleteAllPlansHandler (deployment "" false 0 plan1 healthy)
           (request "web" "" BodyMalformed)) store3 = Some (w', resp) /\
    World.calls w' = [CallDeleteOwnerPlans "acme" "web" "alice"] /\
    resp = Response.mk 200 PayloadNone.
Proof.
  apply (delete_all_is_scoped_to_caller (deployment "" false 0 plan1 healthy)
           (request "web" "" BodyMalformed) (aliceAuth false 0) store3 eq_refl eq_refl).
Defined.
